(** * Countdown.vue: the timer engine of the [countdown] component

    A shallow embedding of [src/src/Countdown.vue].  The component keeps a
    small reactive record ([data]) and drives it from three kinds of host
    stimuli: calls of its methods, animation frames and visibility changes.
    Every method of the component runs to completion, so each one is a
    total function on the world made of the component's record and of the
    parts of the host it talks to (the animation-frame callback map, the
    document's visibility state, the clock read by the [now] prop and the
    listener of the emitted events).

    Numbers are JavaScript numbers in the source; here milliseconds and
    frame timestamps are integers ([Z]).  [Math.floor (a / b)] for a
    positive [b] is [Z.div], [%] is the truncating [Z.rem], and the one
    halving of the source ([(_now - prev) / 2]) is kept exact by comparing
    the doubled quantities. *)

From Stdlib Require Import ZArith List Bool Lia Sorted.
Import ListNotations.

#[local] Open Scope Z_scope.

(** ** Unit weights (lines 7-10) *)

Definition MILLISECONDS_SECOND : Z := 1000.
Definition MILLISECONDS_MINUTE : Z := 60 * MILLISECONDS_SECOND.
Definition MILLISECONDS_HOUR : Z := 60 * MILLISECONDS_MINUTE.
Definition MILLISECONDS_DAY : Z := 24 * MILLISECONDS_HOUR.

(** ** The computed values (lines 92-100), as functions of
    [data.totalMilliseconds] *)

Definition days (totalMilliseconds : Z) : Z :=
  totalMilliseconds / MILLISECONDS_DAY.
Definition hours (totalMilliseconds : Z) : Z :=
  Z.rem totalMilliseconds MILLISECONDS_DAY / MILLISECONDS_HOUR.
Definition minutes (totalMilliseconds : Z) : Z :=
  Z.rem totalMilliseconds MILLISECONDS_HOUR / MILLISECONDS_MINUTE.
Definition seconds (totalMilliseconds : Z) : Z :=
  Z.rem totalMilliseconds MILLISECONDS_MINUTE / MILLISECONDS_SECOND.
Definition milliseconds (totalMilliseconds : Z) : Z :=
  Z.rem totalMilliseconds MILLISECONDS_SECOND.
Definition totalHours (totalMilliseconds : Z) : Z :=
  totalMilliseconds / MILLISECONDS_HOUR.
Definition totalMinutes (totalMilliseconds : Z) : Z :=
  totalMilliseconds / MILLISECONDS_MINUTE.
Definition totalSeconds (totalMilliseconds : Z) : Z :=
  totalMilliseconds / MILLISECONDS_SECOND.

(** ** Props (lines 44-76)

    The [now] prop is a function of the host; what it returns is the
    [clock] field of the world below. *)

Record Props := {
  autoStart : bool;
  emitEvents : bool;
  interval : Z;
  time : Z
}.

(** The two validators of the props, [(value) => value >= 0].  Nothing in
    [setup] reads their verdict. *)
Definition interval_validator (value : Z) : bool := 0 <=? value.
Definition time_validator (value : Z) : bool := 0 <=? value.

(** ** The component's record (lines 12-40, 80-85) *)

Record CountdownInterface := {
  counting : bool;
  endTime : Z;
  totalMilliseconds : Z;
  requestId : nat
}.

(** ** Host side *)

Inductive VisibilityState := visible | hidden.

(** The events handed to [emit].  The [progress] payload holds the number
    [data.totalMilliseconds] read at emission; its other fields are the
    computed cells themselves, whose values are the functions above. *)
Inductive Event :=
| EvStart
| EvProgress (payloadTotalMilliseconds : Z)
| EvAbort
| EvEnd.

(** The variables captured by one [step] arrow function (lines 154-182):
    [delay] is a constant of the enclosing [continuance] call, [init] and
    [prev] start out undefined. *)
Record Closure := {
  delay : Z;
  init : option Z;
  prev : option Z
}.

Record World := {
  data : CountdownInterface;
  callbacks : list (nat * Closure);   (* animation frame callbacks, by handle *)
  nextHandle : nat;                   (* next handle of requestAnimationFrame *)
  visibilityState : VisibilityState;  (* document.visibilityState *)
  clock : Z;                          (* what now() returns *)
  emitted : list Event                (* events emitted so far, oldest first *)
}.

Definition set_data (d : CountdownInterface) (w : World) : World :=
  {| data := d; callbacks := callbacks w; nextHandle := nextHandle w;
     visibilityState := visibilityState w; clock := clock w;
     emitted := emitted w |}.

Definition set_counting (b : bool) (w : World) : World :=
  set_data {| counting := b; endTime := endTime (data w);
              totalMilliseconds := totalMilliseconds (data w);
              requestId := requestId (data w) |} w.

Definition set_endTime (z : Z) (w : World) : World :=
  set_data {| counting := counting (data w); endTime := z;
              totalMilliseconds := totalMilliseconds (data w);
              requestId := requestId (data w) |} w.

Definition set_totalMilliseconds (z : Z) (w : World) : World :=
  set_data {| counting := counting (data w); endTime := endTime (data w);
              totalMilliseconds := z;
              requestId := requestId (data w) |} w.

Definition set_requestId (h : nat) (w : World) : World :=
  set_data {| counting := counting (data w); endTime := endTime (data w);
              totalMilliseconds := totalMilliseconds (data w);
              requestId := h |} w.

Definition set_callbacks (l : list (nat * Closure)) (w : World) : World :=
  {| data := data w; callbacks := l; nextHandle := nextHandle w;
     visibilityState := visibilityState w; clock := clock w;
     emitted := emitted w |}.

Definition set_visibilityState (v : VisibilityState) (w : World) : World :=
  {| data := data w; callbacks := callbacks w; nextHandle := nextHandle w;
     visibilityState := v; clock := clock w; emitted := emitted w |}.

Definition set_clock (c : Z) (w : World) : World :=
  {| data := data w; callbacks := callbacks w; nextHandle := nextHandle w;
     visibilityState := visibilityState w; clock := c; emitted := emitted w |}.

(** [emit]: the listener records the event. *)
Definition emit (e : Event) (w : World) : World :=
  {| data := data w; callbacks := callbacks w; nextHandle := nextHandle w;
     visibilityState := visibilityState w; clock := clock w;
     emitted := emitted w ++ [e] |}.

(** [requestAnimationFrame(step)] followed by the assignment of the
    returned handle to [data.requestId]. *)
Definition requestAnimationFrame (c : Closure) (w : World) : World :=
  set_requestId (nextHandle w)
    {| data := data w; callbacks := callbacks w ++ [(nextHandle w, c)];
       nextHandle := S (nextHandle w);
       visibilityState := visibilityState w; clock := clock w;
       emitted := emitted w |}.

Fixpoint remove_handle (h : nat) (l : list (nat * Closure))
  : list (nat * Closure) :=
  match l with
  | [] => []
  | (h', c) :: l' =>
      if Nat.eqb h h' then remove_handle h l' else (h', c) :: remove_handle h l'
  end.

Fixpoint find_handle (h : nat) (l : list (nat * Closure)) : option Closure :=
  match l with
  | [] => None
  | (h', c) :: l' => if Nat.eqb h h' then Some c else find_handle h l'
  end.

(** [cancelAnimationFrame(handle)]: an absent handle is ignored. *)
Definition cancelAnimationFrame (h : nat) (w : World) : World :=
  set_callbacks (remove_handle h (callbacks w)) w.

(** JavaScript's [!x] on a variable that is undefined or a number. *)
Definition falsy (x : option Z) : bool :=
  match x with
  | None => true
  | Some v => v =? 0
  end.

(** [if (!x) { x = _now; }] and the value of [x] afterwards. *)
Definition or_else (x : option Z) (_now : Z) : Z :=
  if falsy x then _now
  else match x with
       | Some v => v
       | None => _now
       end.

(** ** The methods of the component *)

Section Methods.

Variable props : Props.

(** [pause] (lines 195-197) *)
Definition pause (w : World) : World :=
  cancelAnimationFrame (requestId (data w)) w.

(** [end] (lines 260-274) *)
Definition end_ (w : World) : World :=
  if negb (counting (data w)) then w
  else
    let w1 := pause w in
    let w2 := set_totalMilliseconds 0 w1 in
    let w3 := set_counting false w2 in
    if emitEvents props then emit EvEnd w3 else w3.

(** [continuance] (lines 149-188).  The [step] closure it registers is
    created with [init] and [prev] undefined. *)
Definition continuance (w : World) : World :=
  if negb (counting (data w)) then w
  else
    let delay := Z.min (totalMilliseconds (data w)) (interval props) in
    if 0 <? delay then
      requestAnimationFrame {| delay := delay; init := None; prev := None |} w
    else end_ w.

(** [progress] (lines 206-230) *)
Definition progress (w : World) : World :=
  if negb (counting (data w)) then w
  else
    let w1 :=
      set_totalMilliseconds
        (totalMilliseconds (data w) - interval props) w in
    let w2 :=
      if emitEvents props && (0 <? totalMilliseconds (data w1))
      then emit (EvProgress (totalMilliseconds (data w1))) w1
      else w1 in
    continuance w2.

(** One run of the [step] arrow function (lines 159-182) with its
    captured variables [c], at frame timestamp [_now].  When it registers
    itself again, the closure's [prev] has become [_now] by the time the
    next frame reads it. *)
Definition step (c : Closure) (_now : Z) (w : World) : World :=
  let init' := or_else (init c) _now in
  let prev' := or_else (prev c) _now in
  let range := _now - init' in
  if (delay c <=? range)
     || (2 * delay c <=? 2 * range + (_now - prev'))
  then progress w
  else
    requestAnimationFrame
      {| delay := delay c; init := Some init'; prev := Some _now |} w.

(** [start] (lines 127-142) *)
Definition start (w : World) : World :=
  if counting (data w) then w
  else
    let w1 := set_counting true w in
    let w2 := if emitEvents props then emit EvStart w1 else w1 in
    match visibilityState w2 with
    | visible => continuance w2
    | hidden => w2
    end.

(** [abort] (lines 239-251) *)
Definition abort (w : World) : World :=
  if negb (counting (data w)) then w
  else
    let w1 := pause w in
    let w2 := set_counting false w1 in
    if emitEvents props then emit EvAbort w2 else w2.

(** [update] (lines 281-285) *)
Definition update (w : World) : World :=
  if counting (data w) then
    set_totalMilliseconds (Z.max 0 (endTime (data w) - clock w)) w
  else w.

(** [handleVisibilityChange] (lines 292-303) *)
Definition handleVisibilityChange (w : World) : World :=
  match visibilityState w with
  | visible => continuance (update w)
  | hidden => pause w
  end.

(** The body of the [watchEffect] (lines 102-109) *)
Definition watchEffect (w : World) : World :=
  let w1 := set_totalMilliseconds (time props) w in
  let w2 := set_endTime (clock w1 + time props) w1 in
  if autoStart props then start w2 else w2.

(** The host runs the animation frame callbacks that were registered
    when the frame began, in order of registration, all with the same
    timestamp; a callback cancelled meanwhile is skipped, one registered
    meanwhile waits for the next frame. *)
Fixpoint run_callbacks (handles : list nat) (_now : Z) (w : World) : World :=
  match handles with
  | [] => w
  | h :: handles' =>
      match find_handle h (callbacks w) with
      | Some c =>
          run_callbacks handles' _now
            (step c _now (set_callbacks (remove_handle h (callbacks w)) w))
      | None => run_callbacks handles' _now w
      end
  end.

Definition animationFrame (_now : Z) (w : World) : World :=
  run_callbacks (map fst (callbacks w)) _now w.

End Methods.

(** [setup] (lines 78-109): the record is created, then the effect runs
    once, in a host whose document is in state [v] and whose clock reads
    [c]. *)
Definition initial_data : CountdownInterface :=
  {| counting := false; endTime := 0; totalMilliseconds := 0; requestId := 0 |}.

Definition initial_world (v : VisibilityState) (c : Z) : World :=
  {| data := initial_data; callbacks := []; nextHandle := 1;
     visibilityState := v; clock := c; emitted := [] |}.

Definition setup (props : Props) (v : VisibilityState) (c : Z) : World :=
  watchEffect props (initial_world v c).

(** ** Stimuli

    What can happen to a mounted component: a call of one of the methods
    it returns (lines 305-312), an animation frame, a visibility change of
    the document (the state changes, then the listener runs), the clock
    moving, and the effect running again.  When the effect runs again is
    for Vue to say: after a write to a field of [data] that the last run
    of the effect has read.  With [autoStart] on that run reads
    [data.counting] in [start] (line 128) and, when [start] goes on to
    [continuance], [data.totalMilliseconds] (line 154), so that a later
    [abort] or [end], and a [progress] after a run that went through
    [continuance], is followed by [Effect]; with [autoStart] off it reads
    none, and the effect never runs again. *)
Inductive Stimulus :=
| CallStart
| CallContinuance
| CallPause
| CallProgress
| CallAbort
| CallEnd
| CallUpdate
| CallHandleVisibilityChange
| Frame (_now : Z)
| VisibilityChange (v : VisibilityState)
| Clock (c : Z)
| Effect.

Definition react (props : Props) (s : Stimulus) (w : World) : World :=
  match s with
  | CallStart => start props w
  | CallContinuance => continuance props w
  | CallPause => pause w
  | CallProgress => progress props w
  | CallAbort => abort props w
  | CallEnd => end_ props w
  | CallUpdate => update w
  | CallHandleVisibilityChange => handleVisibilityChange props w
  | Frame t => animationFrame props t w
  | VisibilityChange v => handleVisibilityChange props (set_visibilityState v w)
  | Clock c => set_clock c w
  | Effect => watchEffect props w
  end.

Definition run (props : Props) (ss : list Stimulus) (w : World) : World :=
  fold_left (fun w s => react props s w) ss w.

(** Animation frames one after the other with no run of the effect in
    between, as it is when [autoStart] is off. *)
Definition frames (props : Props) (ts : list Z) (w : World) : World :=
  fold_left (fun w t => animationFrame props t w) ts w.

(** ** Vocabulary of the statements *)

(** A [progress] event whose payload is a strictly positive time. *)
Definition positive_payload (e : Event) : Prop :=
  match e with
  | EvProgress p => 0 < p
  | _ => True
  end.

(** What every world between two stimuli satisfies: the remaining time is
    not negative, as long as the [time] prop is not, and no [progress]
    event carried a time that is not positive. *)
Definition sound (P : Props) (w : World) : Prop :=
  (0 <= time P -> 0 <= totalMilliseconds (data w))
  /\ Forall positive_payload (emitted w).

Definition is_progress (e : Event) : bool :=
  match e with
  | EvProgress _ => true
  | _ => false
  end.

(** Number of [progress] events in a trace. *)
Definition progress_count (l : list Event) : nat :=
  length (filter is_progress l).

(** The payloads of the [progress] events of a trace, oldest first. *)
Fixpoint payloads (l : list Event) : list Z :=
  match l with
  | [] => []
  | EvProgress p :: l' => p :: payloads l'
  | _ :: l' => payloads l'
  end.

(** The first [n] progress events of a countdown of [d] by steps of [i]. *)
Definition progress_events (d i : Z) (n : nat) : list Event :=
  map (fun k => EvProgress (d - Z.of_nat k * i)) (seq 1 n).

(** Number of steps of [i] that leave something of [d]: the [k >= 1] with
    [d - k * i > 0]. *)
Definition ticks (d i : Z) : nat := Z.to_nat ((d - 1) / i).

(** The trace of a whole countdown. *)
Definition full_trace (d i : Z) : list Event :=
  EvStart :: progress_events d i (ticks d i) ++ [EvEnd].

(** Frames enough for a countdown of [d] by [i] to finish, when the frame
    timestamps advance. *)
Definition frame_budget (d i : Z) : nat :=
  Z.to_nat ((d / i + 1) * (i + 1)).

(** Stimuli that do not start the countdown. *)
Definition starts (s : Stimulus) : bool :=
  match s with
  | CallStart | Effect => true
  | _ => false
  end.

(** The props of a countdown of [d] by [i] that starts by itself and emits
    its events. *)
Definition countdown_props (d i : Z) : Props :=
  {| autoStart := true; emitEvents := true; interval := i; time := d |}.

(** Frame timestamps that are positive and advance. *)
Definition advancing (ts : list Z) : Prop :=
  StronglySorted Z.lt ts /\ Forall (fun t => 0 < t) ts.

(** The world of a countdown of [d] under way after [k] progress events:
    counting, something left, one callback pending, the one whose handle
    is [data.requestId], waiting for [min (remaining, interval)]. *)
Definition running (P : Props) (d : Z) (k : nat) (c : Closure) (w : World)
  : Prop :=
  counting (data w) = true /\
  totalMilliseconds (data w) = d - Z.of_nat k * interval P /\
  0 < totalMilliseconds (data w) /\
  emitted w = EvStart :: progress_events d (interval P) k /\
  callbacks w = [(requestId (data w), c)] /\
  delay c = Z.min (totalMilliseconds (data w)) (interval P).

(** The world of a countdown of [d] that has come to its end. *)
Definition finished (P : Props) (d : Z) (w : World) : Prop :=
  counting (data w) = false /\
  totalMilliseconds (data w) = 0 /\
  callbacks w = [] /\
  emitted w = full_trace d (interval P).

(** A closure that has seen no frame yet, or whose first frame was at a
    positive time and whose last frame, not later than [lo], did not
    reach the delay. *)
Definition closure_ok (lo : Z) (c : Closure) : Prop :=
  match init c, prev c with
  | None, None => True
  | Some a, Some p => 0 < a /\ a <= p /\ p <= lo /\ p - a < delay c
  | _, _ => False
  end.

(** Advancing frames a closure can still see without calling [progress]. *)
Definition loop_left (c : Closure) : Z :=
  match init c, prev c with
  | Some a, Some p => delay c - (p - a)
  | _, _ => delay c + 1
  end.

(** Advancing frames a countdown with [r] remaining can still see without
    coming to its end. *)
Definition frames_left (i r : Z) (c : Closure) : Z :=
  loop_left c + ((r + i - 1) / i - 1) * (i + 1).

(** The countdown set up in a visible document and started, by the effect
    or by a call of [start]. *)
Definition launched (P : Props) (c : Z) : World :=
  if autoStart P then setup P visible c
  else start P (setup P visible c).

(** The count of progress events as section 8 of the specification has
    it. *)
Definition floor_count_claim : Prop :=
  forall d i c ts,
    0 <= d -> 0 < i ->
    let w := frames (countdown_props d i) ts
               (setup (countdown_props d i) visible c) in
    counting (data w) = false ->
    progress_count (emitted w) = Z.to_nat (d / i).

(** An idle world with trace [es] and remaining time [r]. *)
Definition idle_with (es : list Event) (r : Z) (w : World) : Prop :=
  counting (data w) = false /\
  emitted w = es /\
  totalMilliseconds (data w) = r.

(** [start] as section 4.1 of the specification has it, on the end time:
    a start from idle sets it to the clock plus the remaining time. *)
Definition start_sets_endTime_claim : Prop :=
  forall P w,
    counting (data w) = false ->
    endTime (data (start P w)) = clock w + totalMilliseconds (data w).

(** Props that one of the validators refuses. *)
Definition invalid (P : Props) : Prop :=
  time_validator (time P) = false \/ interval_validator (interval P) = false.

(** Section 7 of the specification: with invalid props the engine never
    counts. *)
Definition never_counts_claim : Prop :=
  forall P v c ss,
    invalid P ->
    counting (data (run P ss (setup P v c))) = false.

(** ** Vocabulary of the further statements *)

(** The unit fields put back together. *)
Definition recombine (d h m s ms : Z) : Z :=
  d * MILLISECONDS_DAY + h * MILLISECONDS_HOUR + m * MILLISECONDS_MINUTE
  + s * MILLISECONDS_SECOND + ms.

Definition same_visibility (a b : VisibilityState) : bool :=
  match a, b with
  | visible, visible | hidden, hidden => true
  | _, _ => false
  end.

(** What reaches the component from outside in the world [w]: the methods
    the source marks public ([start], [abort], [end]), animation frames,
    the clock, the effect, and a visibility change to a state other than
    the current one.  The methods marked private are called by the
    component only. *)
Definition outside (w : World) (s : Stimulus) : bool :=
  match s with
  | CallStart | CallAbort | CallEnd | Frame _ | Clock _ | Effect => true
  | VisibilityChange v => negb (same_visibility v (visibilityState w))
  | CallContinuance | CallPause | CallProgress | CallUpdate
  | CallHandleVisibilityChange => false
  end.

(** A sequence of stimuli each of which comes from outside in the world
    it meets. *)
Fixpoint all_outside (P : Props) (ss : list Stimulus) (w : World) : bool :=
  match ss with
  | [] => true
  | s :: ss' => outside w s && all_outside P ss' (react P s w)
  end.

(** At most one frame callback is pending; if one is, its handle is
    [data.requestId], the engine counts and the document is visible. *)
Definition one_pending (w : World) : Prop :=
  callbacks w = []
  \/ exists c, callbacks w = [(requestId (data w), c)]
               /\ counting (data w) = true
               /\ visibilityState w = visible.

Definition is_effect (s : Stimulus) : bool :=
  match s with
  | Effect => true
  | _ => false
  end.

(** The state machine read off a trace: [start] leads from idle to
    counting, [progress] stays in counting, [abort] and [end] lead back to
    idle; any other event in any other state is out of order ([None]). *)
Definition lifecycle_step (st : option bool) (e : Event) : option bool :=
  match st, e with
  | Some false, EvStart => Some true
  | Some true, EvProgress _ => Some true
  | Some true, EvAbort => Some false
  | Some true, EvEnd => Some false
  | _, _ => None
  end.

Definition lifecycle (l : list Event) : option bool :=
  fold_left lifecycle_step l (Some false).

(** [m] frames [g] apart, the first at [a]. *)
Definition even_frames (a g : Z) (m : nat) : list Z :=
  map (fun j => a + Z.of_nat j * g) (seq 0 m).

(** A closure that has seen no frame. *)
Definition fresh (dl : Z) : Closure :=
  {| delay := dl; init := None; prev := None |}.

(** The trace is in order with the [counting] flag when events are
    emitted, and empty when they are not. *)
Definition in_order (P : Props) (w : World) : Prop :=
  if emitEvents P
  then lifecycle (emitted w) = Some (counting (data w))
  else emitted w = [].

(** A counting engine with [r > 0] remaining and exactly one callback
    pending, the one of [data.requestId], with captured variables [c]
    whose delay is the one [continuance] computes. *)
Definition ticking (P : Props) (r : Z) (c : Closure) (w : World) : Prop :=
  counting (data w) = true
  /\ totalMilliseconds (data w) = r
  /\ 0 < r
  /\ callbacks w = [(requestId (data w), c)]
  /\ delay c = Z.min r (interval P).

(** An idle engine with nothing remaining and nothing pending. *)
Definition stopped (w : World) : Prop :=
  counting (data w) = false
  /\ totalMilliseconds (data w) = 0
  /\ callbacks w = [].

(** The props of a countdown of [d] by [i] that emits its events and
    waits for a call of [start]. *)
Definition manual_props (d i : Z) : Props :=
  {| autoStart := false; emitEvents := true; interval := i; time := d |}.

(** Section 3 of the specification: the remaining time is not negative
    in any state the operations reach, the configuration included. *)
Definition never_negative_claim : Prop :=
  forall P v c ss,
    0 <= totalMilliseconds (data (run P ss (setup P v c))).


(** * The breakdown of the remaining time *)

Module Breakdown.

(** On a remaining time that is not negative, [%] is the usual modulo. *)
Lemma rem_is_mod (r m : Z) : 0 <= r -> 0 < m -> Z.rem r m = r mod m.
Proof.
  intros Hr Hm. apply Z.rem_mod_nonneg; lia.
Qed.

Ltac unfold_units :=
  unfold days, hours, minutes, seconds, milliseconds,
    totalHours, totalMinutes, totalSeconds,
    MILLISECONDS_DAY, MILLISECONDS_HOUR, MILLISECONDS_MINUTE,
    MILLISECONDS_SECOND in *;
  change (24 * (60 * (60 * 1000))) with 86400000 in *;
  change (60 * (60 * 1000)) with 3600000 in *;
  change (60 * 1000) with 60000 in *.

Ltac to_mod r :=
  unfold_units;
  rewrite ?(rem_is_mod r 86400000), ?(rem_is_mod r 3600000),
    ?(rem_is_mod r 60000), ?(rem_is_mod r 1000) by lia.

(** The figures of section 8 of the specification. *)
Example breakdown_90125 :
  days 90125 = 0 /\ hours 90125 = 0 /\ minutes 90125 = 1 /\
  seconds 90125 = 30 /\ milliseconds 90125 = 125 /\
  totalMinutes 90125 = 1 /\ totalSeconds 90125 = 90.
Proof.
  repeat split; reflexivity.
Qed.

(** C4: for every remaining time [r >= 0], the five unit fields, each
    computed from [r] itself by the source's floor and remainder formulas,
    recombine to [r] with their unit weights. *)
Theorem breakdown_recombines (r : Z) :
  0 <= r ->
  days r * 86400000 + hours r * 3600000 + minutes r * 60000
    + seconds r * 1000 + milliseconds r = r.
Proof.
  intros Hr. to_mod r.
  Z.to_euclidean_division_equations. lia.
Qed.

Lemma breakdown_recombines_witness :
  0 <= 90125 /\
  days 90125 * 86400000 + hours 90125 * 3600000 + minutes 90125 * 60000
    + seconds 90125 * 1000 + milliseconds 90125 = 90125.
Proof.
  split; [lia | apply (breakdown_recombines 90125); lia].
Defined.

(** C10: for every remaining time [r >= 0] the unit fields stay within
    their clock ranges; [days] is only bounded below. *)
Theorem breakdown_bounds (r : Z) :
  0 <= r ->
  0 <= days r /\
  0 <= hours r <= 23 /\
  0 <= minutes r <= 59 /\
  0 <= seconds r <= 59 /\
  0 <= milliseconds r <= 999.
Proof.
  intros Hr. to_mod r.
  Z.to_euclidean_division_equations. lia.
Qed.

Lemma breakdown_bounds_witness :
  0 <= 86399999 /\
  0 <= days 86399999 /\
  0 <= hours 86399999 <= 23 /\
  0 <= minutes 86399999 <= 59 /\
  0 <= seconds 86399999 <= 59 /\
  0 <= milliseconds 86399999 <= 999.
Proof.
  split; [lia | apply (breakdown_bounds 86399999); lia].
Defined.

(** The bounds are reached, and a negative remaining time escapes them. *)
Example breakdown_bounds_tight :
  hours 86399999 = 23 /\ minutes 86399999 = 59 /\
  seconds 86399999 = 59 /\ milliseconds 86399999 = 999 /\
  milliseconds (-1) = -1.
Proof.
  repeat split; reflexivity.
Qed.

End Breakdown.


(** * Elementary facts about the methods *)

#[local] Arguments Z.mul : simpl never.
#[local] Arguments Z.add : simpl never.
#[local] Arguments Z.sub : simpl never.
#[local] Arguments Z.min : simpl never.
#[local] Arguments Z.max : simpl never.
#[local] Arguments Z.ltb : simpl never.
#[local] Arguments Z.leb : simpl never.
#[local] Arguments Z.of_nat : simpl never.

Ltac break_world w :=
  let cnt := fresh "cnt" in let et := fresh "et" in
  let tot := fresh "tot" in let rid := fresh "rid" in
  let cbs := fresh "cbs" in let nh := fresh "nh" in
  let vis := fresh "vis" in let clk := fresh "clk" in
  let em := fresh "em" in
  destruct w as [[cnt et tot rid] cbs nh vis clk em].

Ltac break_ifs :=
  repeat match goal with
    | |- context [if ?b then _ else _] => destruct b eqn:?
    | |- context [match ?v with visible => _ | hidden => _ end] =>
        destruct v eqn:?
    end.

Section Preservation.

Variable P : Props.

(** A property kept by every callback is kept by a whole frame. *)
Lemma run_callbacks_preserves (I : World -> Prop) :
  (forall l w, I w -> I (set_callbacks l w)) ->
  (forall c t w, I w -> I (step P c t w)) ->
  forall hs t w, I w -> I (run_callbacks P hs t w).
Proof.
  intros Hcb Hstep hs t. induction hs as [|h hs IH]; intros w Hw; simpl.
  - exact Hw.
  - destruct (find_handle h (callbacks w)); auto.
Qed.

Lemma Forall_snoc {A} (Q : A -> Prop) l x :
  Forall Q l -> Q x -> Forall Q (l ++ [x]).
Proof.
  intros Hl Hx. apply Forall_app. split; [exact Hl | repeat constructor; exact Hx].
Qed.

Ltac sound_tac :=
  unfold sound in *; simpl in *;
  repeat match goal with
    | H : _ /\ _ |- _ => destruct H
    | H : (_ && _)%bool = true |- _ => apply andb_prop in H
    | H : (_ <? _) = true |- _ => apply Z.ltb_lt in H
    | H : (_ <? _) = false |- _ => apply Z.ltb_ge in H
    end;
  split; simpl;
  [ let Hv := fresh "Hv" in
    intros Hv;
    repeat match goal with
      | H : ?A -> _ |- _ => specialize (H Hv)
      end;
    try lia
  | try apply Forall_snoc; simpl; auto; try lia ].

Lemma sound_pause w : sound P w -> sound P (pause w).
Proof. intros H. break_world w. sound_tac. Qed.

Lemma sound_end w : sound P w -> sound P (end_ P w).
Proof.
  intros H. unfold end_. break_world w. simpl. break_ifs; sound_tac.
Qed.

Lemma sound_rAF c w : sound P w -> sound P (requestAnimationFrame c w).
Proof. intros H. break_world w. sound_tac. Qed.

(** [continuance] on a world whose remaining time may have gone negative
    in the enclosing [progress]: either the time is positive and stays, or
    [end] resets it. *)
Lemma sound_continuance_after w :
  counting (data w) = true ->
  Forall positive_payload (emitted w) ->
  sound P (continuance P w).
Proof.
  intros Hc He. unfold continuance, end_. break_world w. simpl in *. subst.
  simpl. break_ifs; sound_tac.
Qed.

Lemma sound_continuance w : sound P w -> sound P (continuance P w).
Proof.
  intros H. destruct (counting (data w)) eqn:Hc.
  - apply sound_continuance_after; [exact Hc | apply H].
  - unfold continuance. rewrite Hc. exact H.
Qed.

Lemma sound_progress w : sound P w -> sound P (progress P w).
Proof.
  intros H. unfold progress.
  destruct (counting (data w)) eqn:Hc; simpl; [|exact H].
  apply sound_continuance_after.
  - break_ifs; break_world w; simpl in *; exact Hc.
  - destruct H as [_ He]. break_ifs; break_world w; simpl in *; auto.
    apply andb_prop in Heqb. destruct Heqb as [_ Hp]. apply Z.ltb_lt in Hp.
    apply Forall_snoc; simpl; auto.
Qed.

Lemma sound_step c t w : sound P w -> sound P (step P c t w).
Proof.
  intros H. unfold step. break_ifs.
  - apply sound_progress, H.
  - apply sound_rAF, H.
Qed.

Lemma sound_set_callbacks l w : sound P w -> sound P (set_callbacks l w).
Proof. intros H. break_world w. sound_tac. Qed.

Lemma sound_frame t w : sound P w -> sound P (animationFrame P t w).
Proof.
  unfold animationFrame. apply run_callbacks_preserves.
  - apply sound_set_callbacks.
  - apply sound_step.
Qed.

Lemma sound_start w : sound P w -> sound P (start P w).
Proof.
  intros H. unfold start.
  destruct (counting (data w)) eqn:Hc; [exact H|].
  assert (H1 : sound P (set_counting true w)) by (break_world w; sound_tac).
  assert (H2 : sound P (if emitEvents P
                        then emit EvStart (set_counting true w)
                        else set_counting true w)).
  { destruct (emitEvents P); [|exact H1].
    clear H. break_world w. sound_tac. }
  destruct (visibilityState _); [apply sound_continuance, H2 | exact H2].
Qed.

Lemma sound_abort w : sound P w -> sound P (abort P w).
Proof.
  intros H. unfold abort. break_world w. simpl. break_ifs; sound_tac.
Qed.

Lemma sound_update w : sound P w -> sound P (update w).
Proof.
  intros H. unfold update. break_world w. simpl. break_ifs; sound_tac.
Qed.

Lemma sound_handleVisibilityChange w :
  sound P w -> sound P (handleVisibilityChange P w).
Proof.
  intros H. unfold handleVisibilityChange.
  destruct (visibilityState w).
  - apply sound_continuance, sound_update, H.
  - apply sound_pause, H.
Qed.

Lemma sound_watchEffect w : sound P w -> sound P (watchEffect P w).
Proof.
  intros H. unfold watchEffect.
  assert (H1 : sound P (set_endTime
                          (clock (set_totalMilliseconds (time P) w) + time P)
                          (set_totalMilliseconds (time P) w))).
  { break_world w. sound_tac. }
  destruct (autoStart P); [apply sound_start, H1 | exact H1].
Qed.

Lemma sound_react s w : sound P w -> sound P (react P s w).
Proof.
  intros H. destruct s; simpl.
  - apply sound_start, H.
  - apply sound_continuance, H.
  - apply sound_pause, H.
  - apply sound_progress, H.
  - apply sound_abort, H.
  - apply sound_end, H.
  - apply sound_update, H.
  - apply sound_handleVisibilityChange, H.
  - apply sound_frame, H.
  - apply sound_handleVisibilityChange. break_world w. sound_tac.
  - break_world w. sound_tac.
  - apply sound_watchEffect, H.
Qed.

Lemma sound_run ss w : sound P w -> sound P (run P ss w).
Proof.
  revert w. induction ss as [|s ss IH]; intros w H; simpl.
  - exact H.
  - apply IH, sound_react, H.
Qed.

Lemma sound_setup v c : sound P (setup P v c).
Proof.
  apply sound_watchEffect. split; simpl; [lia | constructor].
Qed.

End Preservation.


(** * A whole countdown *)

Section Countdown.

Variable P : Props.
Variable d : Z.

Hypothesis emits : emitEvents P = true.
Hypothesis interval_pos : 0 < interval P.

Lemma progress_events_snoc i n :
  progress_events d i (S n) =
  progress_events d i n ++ [EvProgress (d - Z.of_nat (S n) * i)].
Proof.
  unfold progress_events. rewrite seq_S, map_app. reflexivity.
Qed.

(** The last step: [k] events so far, something left, nothing left after
    one more step. *)
Lemma ticks_last k :
  0 < d - Z.of_nat k * interval P ->
  d - Z.of_nat (S k) * interval P <= 0 ->
  ticks d (interval P) = k.
Proof.
  intros Hpos Hneg. unfold ticks.
  set (i := interval P) in *.
  assert (E : (d - 1) / i = Z.of_nat k).
  { symmetry. apply Z.div_unique with (r := d - 1 - Z.of_nat k * i); lia. }
  rewrite E. apply Nat2Z.id.
Qed.

(** A frame with one callback pending runs that callback. *)
Lemma frame_single w h c t :
  callbacks w = [(h, c)] ->
  animationFrame P t w = step P c t (set_callbacks [] w).
Proof.
  intros H. unfold animationFrame. rewrite H.
  cbn [map fst run_callbacks]. rewrite H.
  cbn [find_handle remove_handle]. rewrite Nat.eqb_refl. reflexivity.
Qed.

(** What one frame does to a countdown under way. *)
Lemma frame_cases k c t w :
  running P d k c w ->
  let w' := animationFrame P t w in
  let init' := or_else (init c) t in
  let range := t - init' in
  if (delay c <=? range) || (2 * delay c <=? 2 * range + (t - or_else (prev c) t))
  then
    if 0 <? d - Z.of_nat (S k) * interval P
    then running P d (S k)
           {| delay := Z.min (d - Z.of_nat (S k) * interval P) (interval P);
              init := None; prev := None |} w'
    else finished P d w'
  else
    running P d k {| delay := delay c; init := Some init'; prev := Some t |} w'.
Proof.
  intros (Hc & Ht & Hpos & He & Hcb & Hd). cbv zeta.
  rewrite (frame_single _ _ _ _ Hcb).
  unfold step.
  destruct ((delay c <=? t - or_else (init c) t)
            || (2 * delay c <=? 2 * (t - or_else (init c) t)
                                + (t - or_else (prev c) t))) eqn:Hfire.
  - (* progress *)
    assert (E : totalMilliseconds (data w) - interval P
                = d - Z.of_nat (S k) * interval P) by lia.
    unfold progress. simpl. rewrite Hc, emits, E. simpl.
    destruct (0 <? d - Z.of_nat (S k) * interval P) eqn:Hleft.
    + apply Z.ltb_lt in Hleft.
      unfold continuance. simpl. rewrite Hc. simpl.
      replace (0 <? Z.min (d - Z.of_nat (S k) * interval P) (interval P))
        with true by (symmetry; apply Z.ltb_lt; lia).
      unfold running. simpl.
      repeat split; try lia; try assumption.
      rewrite progress_events_snoc, He. reflexivity.
    + apply Z.ltb_ge in Hleft.
      unfold continuance. simpl. rewrite Hc. simpl.
      replace (0 <? Z.min (d - Z.of_nat (S k) * interval P) (interval P))
        with false by (symmetry; apply Z.ltb_ge; lia).
      unfold end_. simpl. rewrite Hc, emits. simpl.
      unfold finished. simpl.
      repeat split.
      unfold full_trace. rewrite (ticks_last k) by lia.
      rewrite He. reflexivity.
  - (* the callback registers itself again *)
    unfold running. simpl.
    repeat split; assumption.
Qed.

(** Nothing is pending once the countdown has come to its end: frames
    change nothing. *)
Lemma finished_frames ts w :
  finished P d w -> frames P ts w = w.
Proof.
  intros (_ & _ & Hcb & _). induction ts as [|t ts IH]; simpl.
  - reflexivity.
  - unfold animationFrame at 1. rewrite Hcb. simpl. exact IH.
Qed.

(** Safety: whatever the frames, the countdown is under way or has come
    to its end. *)
Lemma frames_safe ts :
  forall k c w,
    running P d k c w ->
    (exists k' c', running P d k' c' (frames P ts w))
    \/ finished P d (frames P ts w).
Proof.
  induction ts as [|t ts IH]; intros k c w Hrun; simpl.
  - left. exists k, c. exact Hrun.
  - pose proof (frame_cases k c t w Hrun) as Hcase. cbv zeta in Hcase.
    destruct ((delay c <=? t - or_else (init c) t)
              || (2 * delay c <=? 2 * (t - or_else (init c) t)
                                  + (t - or_else (prev c) t))).
    + destruct (0 <? d - Z.of_nat (S k) * interval P).
      * eapply IH, Hcase.
      * right. rewrite finished_frames; exact Hcase.
    + eapply IH, Hcase.
Qed.

Lemma loop_left_pos lo c : closure_ok lo c -> 0 < delay c -> 0 < loop_left c.
Proof.
  unfold closure_ok, loop_left.
  destruct (init c), (prev c); intros H Hd; try lia; contradiction.
Qed.

Lemma ceil_step r :
  (r - interval P + interval P - 1) / interval P
  = (r + interval P - 1) / interval P - 1.
Proof.
  replace (r + interval P - 1) with (r - interval P + interval P - 1
                                     + 1 * interval P) by lia.
  rewrite Z.div_add by lia. lia.
Qed.

Lemma ceil_pos r : 0 < r -> 1 <= (r + interval P - 1) / interval P.
Proof.
  intros Hr.
  replace (r + interval P - 1) with (r - 1 + 1 * interval P) by lia.
  rewrite Z.div_add by lia.
  pose proof (Z.div_pos (r - 1) (interval P)). lia.
Qed.

(** Liveness: each advancing frame brings the end nearer. *)
Lemma frames_live ts :
  forall k c w lo,
    running P d k c w ->
    closure_ok lo c ->
    0 <= lo ->
    StronglySorted Z.lt ts ->
    Forall (fun t => lo < t) ts ->
    frames_left (interval P) (totalMilliseconds (data w)) c
      <= Z.of_nat (length ts) ->
    finished P d (frames P ts w).
Proof.
  induction ts as [|t ts IH]; intros k c w lo Hrun Hok Hlo Hsort Hafter Hleft.
  - exfalso. destruct Hrun as (_ & _ & Hpos & _ & _ & Hd).
    pose proof (loop_left_pos lo c Hok ltac:(lia)).
    pose proof (ceil_pos _ Hpos).
    unfold frames_left in Hleft. simpl in Hleft. nia.
  - simpl.
    pose proof (frame_cases k c t w Hrun) as Hcase. cbv zeta in Hcase.
    assert (Hrun' := Hrun).
    destruct Hrun' as (_ & Htot & Hpos & _ & _ & Hd).
    inversion Hsort as [|? ? Hsort' Hall]; subst.
    inversion Hafter as [|? ? Hlt Hafter']; subst.
    assert (Hts : Forall (fun t' => t < t') ts) by exact Hall.
    pose proof (loop_left_pos lo c Hok ltac:(lia)) as Hll.
    pose proof (ceil_pos _ Hpos) as Hceil.
    destruct ((delay c <=? t - or_else (init c) t)
              || (2 * delay c <=? 2 * (t - or_else (init c) t)
                                  + (t - or_else (prev c) t))) eqn:Hfire.
    + destruct (0 <? d - Z.of_nat (S k) * interval P) eqn:Hmore.
      * apply Z.ltb_lt in Hmore.
        eapply (IH _ _ _ t Hcase); try assumption; try lia.
        -- exact I.
        -- destruct Hcase as (_ & Htot' & Hpos' & _ & _ & _).
           rewrite Htot'.
           replace (d - Z.of_nat (S k) * interval P)
             with (totalMilliseconds (data w) - interval P) by lia.
           unfold frames_left in *. rewrite ceil_step.
           unfold loop_left at 1. simpl.
           simpl length in Hleft. rewrite Nat2Z.inj_succ in Hleft.
           set (q := (totalMilliseconds (data w) + interval P - 1) / interval P) in *.
           nia.
      * rewrite finished_frames; exact Hcase.
    + apply orb_false_elim in Hfire. destruct Hfire as [Hf1 Hf2].
      apply Z.leb_gt in Hf1. apply Z.leb_gt in Hf2.
      assert (Hok' : closure_ok t
                {| delay := delay c; init := Some (or_else (init c) t);
                   prev := Some t |}
              /\ loop_left {| delay := delay c;
                             init := Some (or_else (init c) t);
                             prev := Some t |} < loop_left c).
      { unfold closure_ok, loop_left, or_else, falsy in *. simpl.
        destruct (init c) as [a|], (prev c) as [p|]; try contradiction.
        - destruct Hok as (Ha & Hap & Hpl & Hpa).
          replace (a =? 0) with false in * by (symmetry; apply Z.eqb_neq; lia).
          replace (p =? 0) with false in * by (symmetry; apply Z.eqb_neq; lia).
          lia.
        - lia. }
      destruct Hok' as [Hok' Hdec].
      eapply (IH _ _ _ t Hcase); try assumption; try lia.
      destruct Hcase as (_ & Htot' & _).
      unfold frames_left in *. rewrite Htot', <- Htot.
      simpl length in Hleft. rewrite Nat2Z.inj_succ in Hleft. lia.
Qed.

(** The start of the countdown. *)
Lemma launched_cases c :
  d = time P ->
  0 <= d ->
  if 0 <? d
  then running P d 0
         {| delay := Z.min d (interval P); init := None; prev := None |}
         (launched P c)
  else finished P d (launched P c).
Proof.
  intros Hd Hnn.
  assert (E : launched P c =
              start P (set_endTime (c + time P)
                         (set_totalMilliseconds (time P)
                            (initial_world visible c)))).
  { unfold launched, setup, watchEffect. simpl.
    destruct (autoStart P); reflexivity. }
  rewrite E. unfold start. simpl. rewrite emits. simpl.
  unfold continuance. simpl. rewrite <- Hd.
  destruct (0 <? d) eqn:Hpos.
  - apply Z.ltb_lt in Hpos.
    replace (0 <? Z.min d (interval P)) with true
      by (symmetry; apply Z.ltb_lt; lia).
    unfold running. simpl. repeat split; lia.
  - apply Z.ltb_ge in Hpos.
    replace (0 <? Z.min d (interval P)) with false
      by (symmetry; apply Z.ltb_ge; lia).
    unfold end_. simpl. rewrite emits.
    unfold finished. simpl. repeat split.
    unfold full_trace, ticks.
    replace d with 0 by lia.
    replace ((0 - 1) / interval P) with (-1).
    + reflexivity.
    + apply Z.div_unique with (r := interval P - 1); lia.
Qed.

Lemma budget_covers :
  0 <= d ->
  frames_left (interval P) d
    {| delay := Z.min d (interval P); init := None; prev := None |}
  <= Z.of_nat (frame_budget d (interval P)).
Proof.
  intros Hnn. unfold frames_left, frame_budget, loop_left. simpl.
  pose proof (Z.div_pos d (interval P) Hnn interval_pos) as Hq.
  rewrite Z2Nat.id by nia.
  assert (Hc : (d + interval P - 1) / interval P <= d / interval P + 1).
  { replace (d + interval P - 1) with (d - 1 + 1 * interval P) by lia.
    rewrite Z.div_add by lia.
    pose proof (Z.div_le_mono (d - 1) d (interval P)). lia. }
  nia.
Qed.

End Countdown.

(** ** The content of the whole trace *)

Lemma progress_count_events d i n :
  progress_count (progress_events d i n) = n.
Proof.
  unfold progress_count, progress_events.
  transitivity (length (seq 1 n)); [|apply length_seq].
  generalize (seq 1 n). intros l.
  induction l as [|k l IH]; simpl; [reflexivity | now rewrite IH].
Qed.

Lemma progress_count_app l1 l2 :
  progress_count (l1 ++ l2) = (progress_count l1 + progress_count l2)%nat.
Proof.
  unfold progress_count. rewrite filter_app, length_app. reflexivity.
Qed.

Lemma progress_count_full d i :
  progress_count (full_trace d i) = ticks d i.
Proof.
  unfold full_trace.
  change (EvStart :: progress_events d i (ticks d i) ++ [EvEnd])
    with ([EvStart] ++ progress_events d i (ticks d i) ++ [EvEnd]).
  rewrite !progress_count_app, progress_count_events.
  change (progress_count [EvStart]) with 0%nat.
  change (progress_count [EvEnd]) with 0%nat. lia.
Qed.

Lemma payloads_app l1 l2 : payloads (l1 ++ l2) = payloads l1 ++ payloads l2.
Proof.
  induction l1 as [|e l1 IH]; simpl; [reflexivity|].
  destruct e; simpl; now rewrite IH.
Qed.

Lemma payloads_full d i :
  payloads (full_trace d i)
  = map (fun k => d - Z.of_nat k * i) (seq 1 (ticks d i)).
Proof.
  unfold full_trace, progress_events. simpl.
  rewrite payloads_app. simpl. rewrite app_nil_r.
  generalize (seq 1 (ticks d i)). intros l.
  induction l as [|k l IH]; simpl; [reflexivity | now rewrite IH].
Qed.

(** The count of progress events, in terms of the quotient. *)
Lemma ticks_quotient d i :
  0 <= d -> 0 < i ->
  Z.of_nat (ticks d i)
  = if d mod i =? 0 then Z.max 0 (d / i - 1) else d / i.
Proof.
  intros Hd Hi. unfold ticks.
  pose proof (Z.div_mod d i ltac:(lia)) as Hdm.
  pose proof (Z.mod_pos_bound d i Hi) as Hb.
  pose proof (Z.div_pos d i Hd Hi) as Hq.
  destruct (d mod i =? 0) eqn:Hz.
  - apply Z.eqb_eq in Hz.
    assert (E : (d - 1) / i = d / i - 1).
    { symmetry. apply Z.div_unique with (r := i - 1); lia. }
    rewrite E. rewrite Z2Nat.inj_sub by lia.
    destruct (Z.eq_dec (d / i) 0) as [H0|H0].
    + rewrite H0. reflexivity.
    + rewrite Nat2Z.inj_sub, Z2Nat.id by lia. simpl. lia.
  - apply Z.eqb_neq in Hz.
    assert (E : (d - 1) / i = d / i).
    { symmetry. apply Z.div_unique with (r := d mod i - 1); lia. }
    rewrite E. apply Z2Nat.id. lia.
Qed.

Lemma payloads_positive d i :
  0 < i ->
  Forall (fun p => 0 < p)
    (map (fun k => d - Z.of_nat k * i) (seq 1 (ticks d i))).
Proof.
  intros Hi. apply Forall_forall. intros p Hp.
  apply in_map_iff in Hp. destruct Hp as (k & <- & Hk).
  apply in_seq in Hk. unfold ticks in Hk.
  assert (Hle : Z.of_nat k <= (d - 1) / i) by lia.
  pose proof (Z.mul_div_le (d - 1) i Hi). nia.
Qed.

Lemma payloads_decreasing d i n s :
  0 < i ->
  StronglySorted Z.gt (map (fun k => d - Z.of_nat k * i) (seq s n)).
Proof.
  intros Hi. revert s. induction n as [|n IH]; intros s; simpl.
  - constructor.
  - constructor; [apply IH|].
    apply Forall_forall. intros p Hp.
    apply in_map_iff in Hp. destruct Hp as (k & <- & Hk).
    apply in_seq in Hk. nia.
Qed.


(** * An idle engine stays silent *)

Section Idle.

Variable P : Props.
Variable es : list Event.
Variable r : Z.

Lemma idle_continuance w : idle_with es r w -> continuance P w = w.
Proof. intros (Hc & _). unfold continuance. now rewrite Hc. Qed.

Lemma idle_progress w : idle_with es r w -> progress P w = w.
Proof. intros (Hc & _). unfold progress. now rewrite Hc. Qed.

Lemma idle_end w : idle_with es r w -> end_ P w = w.
Proof. intros (Hc & _). unfold end_. now rewrite Hc. Qed.

Lemma idle_abort w : idle_with es r w -> abort P w = w.
Proof. intros (Hc & _). unfold abort. now rewrite Hc. Qed.

Lemma idle_update w : idle_with es r w -> update w = w.
Proof. intros (Hc & _). unfold update. now rewrite Hc. Qed.

Lemma idle_pause w : idle_with es r w -> idle_with es r (pause w).
Proof. intros H. exact H. Qed.

Lemma idle_step c t w : idle_with es r w -> idle_with es r (step P c t w).
Proof.
  intros H. unfold step.
  destruct (_ || _); [now rewrite idle_progress | exact H].
Qed.

Lemma idle_frame t w :
  idle_with es r w -> idle_with es r (animationFrame P t w).
Proof.
  unfold animationFrame. apply run_callbacks_preserves.
  - intros l w' H. exact H.
  - apply idle_step.
Qed.

Lemma idle_handleVisibilityChange w :
  idle_with es r w -> idle_with es r (handleVisibilityChange P w).
Proof.
  intros H. unfold handleVisibilityChange.
  destruct (visibilityState w).
  - rewrite (idle_update w H), (idle_continuance w H). exact H.
  - apply idle_pause, H.
Qed.

Lemma idle_react s w :
  starts s = false -> idle_with es r w -> idle_with es r (react P s w).
Proof.
  intros Hs H. destruct s; simpl in *; try discriminate.
  - now rewrite idle_continuance.
  - apply idle_pause, H.
  - now rewrite idle_progress.
  - now rewrite idle_abort.
  - now rewrite idle_end.
  - now rewrite idle_update.
  - apply idle_handleVisibilityChange, H.
  - apply idle_frame, H.
  - apply idle_handleVisibilityChange. exact H.
  - exact H.
Qed.

Lemma idle_run ss w :
  forallb (fun s => negb (starts s)) ss = true ->
  idle_with es r w -> idle_with es r (run P ss w).
Proof.
  revert w. induction ss as [|s ss IH]; intros w Hq H; simpl in *.
  - exact H.
  - apply andb_prop in Hq. destruct Hq as [Hs Hq].
    apply IH; [exact Hq|]. apply idle_react; [|exact H].
    now destruct (starts s).
Qed.

End Idle.


(** * The claim on the trace of a whole countdown *)

(** A countdown of 1000 by steps of 1000 emits no progress event: its one
    step leaves nothing, and [end] follows. *)
Example one_step_trace :
  emitted (frames (countdown_props 1000 1000) [1; 1001]
             (setup (countdown_props 1000 1000) visible 0))
  = [EvStart; EvEnd].
Proof. reflexivity. Qed.

Example three_steps_trace :
  emitted (frames (manual_props 9 3) [1; 4; 5; 8; 9; 12]
             (launched (manual_props 9 3) 0))
  = [EvStart; EvProgress 6; EvProgress 3; EvEnd].
Proof. reflexivity. Qed.

(** With [autoStart] on the effect runs again after the first step and
    after the end: the first step is taken twice, and the countdown
    starts again. *)
Example autostart_trace :
  emitted (run (countdown_props 10 3)
             [Frame 1; Frame 4; Effect; Frame 5; Frame 8; Frame 9; Frame 12;
              Frame 13; Frame 16; Frame 17; Frame 20; Effect]
             (setup (countdown_props 10 3) visible 0))
  = [EvStart; EvProgress 7; EvProgress 7; EvProgress 4; EvProgress 1;
     EvEnd; EvStart].
Proof. reflexivity. Qed.

(** C1, as stated, fails: a countdown of 1000 by steps of 1000 comes to
    its end after no progress event, not after [floor (1000 / 1000) = 1]. *)
Lemma floor_count_claim_fails : ~ floor_count_claim.
Proof.
  intros H.
  specialize (H 1000 1000 0 [1; 1001] ltac:(lia) ltac:(lia)).
  cbv zeta in H. specialize (H eq_refl).
  vm_compute in H. discriminate H.
Qed.

(** C1, amended: a countdown of [d >= 0] by steps of [i > 0] that emits
    its events and is started by a call of [start] ([autoStart] off, so
    that the effect does not run again), once it has come to its end, has
    emitted [start], then one
    progress event for each [k >= 1] with [d - k * i > 0], carrying
    [d - k * i], then [end]; these are [floor (d / i)] events when [i] does
    not divide [d], and one fewer when it does (none for [d = 0]); the
    payloads are positive and strictly decreasing; frames whose timestamps
    advance bring the end within [frame_budget d i] frames; and after the
    end nothing more is emitted whatever happens, short of a new start. *)
Theorem countdown_trace (P : Props) (c : Z) :
  autoStart P = false ->
  emitEvents P = true ->
  0 <= time P ->
  0 < interval P ->
  let d := time P in
  let i := interval P in
  let n := ticks d i in
  (forall ts,
      counting (data (frames P ts (launched P c))) = false ->
      emitted (frames P ts (launched P c))
      = EvStart :: map (fun k => EvProgress (d - Z.of_nat k * i)) (seq 1 n)
          ++ [EvEnd]
      /\ progress_count (emitted (frames P ts (launched P c))) = n
      /\ payloads (emitted (frames P ts (launched P c)))
         = map (fun k => d - Z.of_nat k * i) (seq 1 n))
  /\ (forall ts,
         advancing ts ->
         (frame_budget d i <= length ts)%nat ->
         counting (data (frames P ts (launched P c))) = false)
  /\ Z.of_nat n = (if d mod i =? 0 then Z.max 0 (d / i - 1) else d / i)
  /\ Forall (fun p => 0 < p) (map (fun k => d - Z.of_nat k * i) (seq 1 n))
  /\ StronglySorted Z.gt (map (fun k => d - Z.of_nat k * i) (seq 1 n))
  /\ (forall ts ss,
         counting (data (frames P ts (launched P c))) = false ->
         forallb (fun s => negb (starts s)) ss = true ->
         emitted (run P ss (frames P ts (launched P c)))
         = emitted (frames P ts (launched P c))).
Proof.
  intros _ Hemit Hd Hi d i n.
  pose proof (launched_cases P d Hemit Hi c eq_refl Hd) as Hlaunch.
  assert (Hsafe : forall ts,
             (exists k' c', running P d k' c' (frames P ts (launched P c)))
             \/ finished P d (frames P ts (launched P c))).
  { intros ts. destruct (0 <? d).
    - eapply frames_safe; eassumption.
    - right. rewrite (finished_frames P d); exact Hlaunch. }
  split; [|repeat split].
  - intros ts Hidle. destruct (Hsafe ts) as [(k' & c' & Hrun) | Hfin].
    + destruct Hrun as (Hc & _). congruence.
    + destruct Hfin as (_ & _ & _ & He). rewrite He.
      split; [reflexivity|].
      split; [apply progress_count_full | apply payloads_full].
  - intros ts [Hsort Hpos] Hlen.
    assert (Hfin : finished P d (frames P ts (launched P c))).
    { destruct (0 <? d) eqn:Hdpos.
      - eapply (frames_live P d Hemit Hi ts 0 _ _ 0 Hlaunch).
        + exact I.
        + lia.
        + exact Hsort.
        + exact Hpos.
        + destruct Hlaunch as (_ & Htot & _). rewrite Htot.
          replace (d - Z.of_nat 0 * interval P) with d by lia.
          pose proof (budget_covers P d Hi Hd) as Hb.
          unfold i in Hlen. lia.
      - rewrite (finished_frames P d); exact Hlaunch. }
    destruct Hfin as (Hc & _). exact Hc.
  - apply ticks_quotient; assumption.
  - apply payloads_positive; assumption.
  - apply payloads_decreasing; assumption.
  - intros ts ss Hidle Hquiet.
    pose proof (idle_run P _ _ ss (frames P ts (launched P c)) Hquiet
                  (conj Hidle (conj eq_refl eq_refl))) as (_ & He & _).
    exact He.
Qed.

Lemma countdown_trace_witness :
  autoStart (manual_props 10 3) = false
  /\ emitEvents (manual_props 10 3) = true
  /\ 0 <= time (manual_props 10 3)
  /\ 0 < interval (manual_props 10 3)
  /\ emitted (frames (manual_props 10 3) [1; 4; 5; 8; 9; 12; 13; 16]
                (launched (manual_props 10 3) 0))
     = [EvStart; EvProgress 7; EvProgress 4; EvProgress 1; EvEnd].
Proof.
  pose proof (countdown_trace (manual_props 10 3) 0
                eq_refl eq_refl ltac:(simpl; lia) ltac:(simpl; lia)) as H.
  cbv zeta in H. destruct H as (H & _).
  split; [reflexivity|]. split; [reflexivity|].
  split; [simpl; lia|]. split; [simpl; lia|].
  exact (proj1 (H [1; 4; 5; 8; 9; 12; 13; 16] eq_refl)).
Defined.

(** Sixteen frames one unit apart are enough for a countdown of 10 by
    3. *)
Example sixteen_frames_suffice :
  frame_budget 10 3 = 16%nat
  /\ emitted (frames (manual_props 10 3) (map Z.of_nat (seq 1 16))
                (launched (manual_props 10 3) 0))
     = [EvStart; EvProgress 7; EvProgress 4; EvProgress 1; EvEnd].
Proof. split; reflexivity. Qed.


(** * The methods one by one *)

Section Start.

Variable P : Props.

(** [start] on a counting engine changes nothing. *)
Lemma start_counting w : counting (data w) = true -> start P w = w.
Proof. intros Hc. unfold start. now rewrite Hc. Qed.

(** What [continuance] does to a counting engine. *)
Lemma continuance_schedules w :
  counting (data w) = true ->
  0 < Z.min (totalMilliseconds (data w)) (interval P) ->
  continuance P w
  = requestAnimationFrame
      {| delay := Z.min (totalMilliseconds (data w)) (interval P);
         init := None; prev := None |} w.
Proof.
  intros Hc Hd. unfold continuance. rewrite Hc. simpl.
  apply Z.ltb_lt in Hd. now rewrite Hd.
Qed.

Lemma continuance_ends w :
  counting (data w) = true ->
  Z.min (totalMilliseconds (data w)) (interval P) <= 0 ->
  continuance P w = end_ P w.
Proof.
  intros Hc Hd. unfold continuance. rewrite Hc. simpl.
  apply Z.ltb_ge in Hd. now rewrite Hd.
Qed.

Lemma end_counting w :
  counting (data w) = true ->
  let w' := end_ P w in
  counting (data w') = false
  /\ totalMilliseconds (data w') = 0
  /\ endTime (data w') = endTime (data w)
  /\ callbacks w' = remove_handle (requestId (data w)) (callbacks w)
  /\ emitted w' = emitted w ++ (if emitEvents P then [EvEnd] else []).
Proof.
  intros Hc. unfold end_. rewrite Hc. simpl.
  destruct (emitEvents P); simpl; repeat split; auto using app_nil_r.
Qed.

(** The step that leaves nothing is an [end] on a remaining time of 0. *)
Lemma progress_last w :
  counting (data w) = true ->
  totalMilliseconds (data w) = interval P ->
  progress P w = end_ P (set_totalMilliseconds 0 w).
Proof.
  intros Hc Ht. unfold progress. rewrite Hc, Ht, Z.sub_diag. simpl.
  rewrite andb_false_r.
  apply continuance_ends; simpl; [exact Hc | lia].
Qed.

(** [start] never writes the end time. *)
Lemma start_endTime w : endTime (data (start P w)) = endTime (data w).
Proof.
  unfold start, continuance, end_. break_world w. simpl.
  break_ifs; reflexivity.
Qed.

(** [start] from idle in a hidden document. *)
Lemma start_hidden w :
  counting (data w) = false ->
  visibilityState w = hidden ->
  counting (data (start P w)) = true
  /\ totalMilliseconds (data (start P w)) = totalMilliseconds (data w)
  /\ callbacks (start P w) = callbacks w
  /\ emitted (start P w)
     = emitted w ++ (if emitEvents P then [EvStart] else []).
Proof.
  intros Hc Hv. unfold start. rewrite Hc.
  destruct (emitEvents P); simpl; rewrite Hv; simpl;
    repeat split; auto using app_nil_r.
Qed.

(** [start] from idle in a visible document, with something to wait
    for. *)
Lemma start_visible w :
  counting (data w) = false ->
  visibilityState w = visible ->
  0 < Z.min (totalMilliseconds (data w)) (interval P) ->
  counting (data (start P w)) = true
  /\ totalMilliseconds (data (start P w)) = totalMilliseconds (data w)
  /\ callbacks (start P w)
     = callbacks w
         ++ [(nextHandle w,
              {| delay := Z.min (totalMilliseconds (data w)) (interval P);
                 init := None; prev := None |})]
  /\ requestId (data (start P w)) = nextHandle w
  /\ emitted (start P w)
     = emitted w ++ (if emitEvents P then [EvStart] else []).
Proof.
  intros Hc Hv Hd. unfold start. rewrite Hc.
  destruct (emitEvents P); simpl; rewrite Hv;
    rewrite continuance_schedules by (simpl; auto);
    simpl; repeat split; auto using app_nil_r.
Qed.

(** [start] from idle in a visible document, with nothing to wait for. *)
Lemma start_visible_ends w :
  counting (data w) = false ->
  visibilityState w = visible ->
  Z.min (totalMilliseconds (data w)) (interval P) <= 0 ->
  counting (data (start P w)) = false
  /\ totalMilliseconds (data (start P w)) = 0
  /\ callbacks (start P w)
     = remove_handle (requestId (data w)) (callbacks w)
  /\ emitted (start P w)
     = (emitted w ++ (if emitEvents P then [EvStart] else []))
         ++ (if emitEvents P then [EvEnd] else []).
Proof.
  intros Hc Hv Hd. unfold start. rewrite Hc.
  destruct (emitEvents P) eqn:He; simpl; rewrite Hv;
    rewrite continuance_ends by (simpl; auto);
    unfold end_; simpl; rewrite He; simpl;
    rewrite ?app_nil_r; repeat split; auto using app_nil_r.
Qed.

(** The end time after the setup. *)
Lemma setup_endTime v c : endTime (data (setup P v c)) = c + time P.
Proof.
  unfold setup, watchEffect. simpl.
  destruct (autoStart P); [|reflexivity].
  unfold start, continuance, end_. simpl.
  destruct v, (emitEvents P); simpl; break_ifs; reflexivity.
Qed.

End Start.


(** * [start] *)

(** Set up at clock 0 without automatic start, then started at clock 500:
    the end time is the one of the setup. *)
Example late_start_endTime :
  let P := {| autoStart := false; emitEvents := true;
              interval := 1000; time := 10000 |} in
  let w := run P [Clock 500; CallStart] (setup P visible 0) in
  endTime (data w) = 10000 /\ clock w = 500
  /\ totalMilliseconds (data w) = 10000 /\ counting (data w) = true.
Proof. repeat split; reflexivity. Qed.

(** [start] does not assign the end time, against what section 4.1 of
    the specification asks of it. *)
Lemma start_sets_endTime_claim_fails : ~ start_sets_endTime_claim.
Proof.
  intros H.
  specialize (H {| autoStart := false; emitEvents := true;
                   interval := 1000; time := 10000 |}
                (set_clock 500
                   (setup {| autoStart := false; emitEvents := true;
                             interval := 1000; time := 10000 |} visible 0))
                eq_refl).
  vm_compute in H. discriminate H.
Qed.

(** What [start] does, call by call: it changes nothing on a counting
    engine; from idle
    it sets [counting], emits [start] when [emitEvents] is set and leaves
    the end time as it is (the effect sets it, to the clock plus the [time]
    prop, before it starts the countdown); in a hidden document nothing
    else happens, in a visible one [continuance] runs: it registers one
    frame callback waiting for [min (remaining, interval)] when that is
    positive, and ends the countdown at once otherwise. *)
Theorem start_behaviour (P : Props) (w : World) :
  (counting (data w) = true -> start P w = w)
  /\ (counting (data w) = false ->
      let w' := start P w in
      let started := emitted w ++ (if emitEvents P then [EvStart] else []) in
      let delay := Z.min (totalMilliseconds (data w)) (interval P) in
      endTime (data w') = endTime (data w)
      /\ (visibilityState w = hidden ->
          counting (data w') = true
          /\ totalMilliseconds (data w') = totalMilliseconds (data w)
          /\ callbacks w' = callbacks w
          /\ emitted w' = started)
      /\ (visibilityState w = visible -> 0 < delay ->
          counting (data w') = true
          /\ totalMilliseconds (data w') = totalMilliseconds (data w)
          /\ callbacks w'
             = callbacks w
                 ++ [(nextHandle w,
                      {| delay := delay; init := None; prev := None |})]
          /\ requestId (data w') = nextHandle w
          /\ emitted w' = started)
      /\ (visibilityState w = visible -> delay <= 0 ->
          counting (data w') = false
          /\ totalMilliseconds (data w') = 0
          /\ callbacks w' = remove_handle (requestId (data w)) (callbacks w)
          /\ emitted w' = started ++ (if emitEvents P then [EvEnd] else [])))
  /\ (forall v c, endTime (data (setup P v c)) = c + time P).
Proof.
  split; [apply start_counting|]. split.
  - intros Hc. cbv zeta.
    split; [apply (start_endTime P)|].
    split; [apply (start_hidden P w Hc)|].
    split; [apply (start_visible P w Hc) | apply (start_visible_ends P w Hc)].
  - apply setup_endTime.
Qed.

Lemma start_behaviour_witness :
  let P := countdown_props 10000 1000 in
  let w := set_clock 500 (initial_world hidden 0) in
  counting (data w) = false
  /\ visibilityState w = hidden
  /\ counting (data (start P w)) = true
  /\ emitted (start P w) = [EvStart].
Proof.
  cbv zeta.
  destruct (start_behaviour (countdown_props 10000 1000)
              (set_clock 500 (initial_world hidden 0))) as (_ & H & _).
  destruct (H eq_refl) as (_ & Hh & _).
  destruct (Hh eq_refl) as (Hc & _ & _ & He).
  split; [reflexivity|]. split; [reflexivity|].
  split; [exact Hc | exact He].
Defined.


(** C2: a [start] from idle is to set the end time to the clock plus the
    remaining time, and the code leaves that out.  Set up at clock [c0]
    with [autoStart] off and started by hand at clock [c1], the engine
    counts down from the whole [time] with the end time still at
    [c0 + time], where [c1 + time] is due; the next return of the document
    to the foreground, at clock [c2], resynchronises on that stale end
    time and leaves [max (0, c0 + time - c2)]: once [c0 + time <= c2] the
    countdown is closed at once, however little of it has run. *)
Theorem late_start_is_cut_short (P : Props) (c0 c1 c2 : Z) :
  autoStart P = false ->
  0 < interval P ->
  0 < time P ->
  let w1 := run P [Clock c1; CallStart] (setup P visible c0) in
  let w2 := run P [VisibilityChange hidden; Clock c2;
                   VisibilityChange visible] w1 in
  counting (data w1) = true
  /\ totalMilliseconds (data w1) = time P
  /\ clock w1 = c1
  /\ endTime (data w1) = c0 + time P
  /\ totalMilliseconds (data w2) = Z.max 0 (c0 + time P - c2)
  /\ (c0 + time P <= c2 ->
      counting (data w2) = false
      /\ emitted w2 = if emitEvents P then [EvStart; EvEnd] else []).
Proof.
  intros Hauto Hi Ht. cbv zeta.
  assert (Hd1 : (0 <? Z.min (time P) (interval P)) = true)
    by (apply Z.ltb_lt; lia).
  unfold setup, watchEffect. rewrite Hauto. simpl.
  destruct (emitEvents P) eqn:He;
    repeat (progress (unfold start, continuance, handleVisibilityChange,
                        update;
                      simpl; rewrite ?Hd1, ?He));
    (destruct (0 <? Z.min (Z.max 0 (c0 + time P - c2)) (interval P)) eqn:Hd2;
     [ apply Z.ltb_lt in Hd2
     | apply Z.ltb_ge in Hd2; unfold end_; simpl; rewrite ?He ];
     simpl;
     repeat match goal with
       | |- _ /\ _ => split
       | |- _ -> _ => intros ?
       end;
     first [reflexivity | lia]).
Qed.

Lemma late_start_is_cut_short_witness :
  let P := manual_props 10000 1000 in
  let w1 := run P [Clock 500000; CallStart] (setup P visible 0) in
  let w2 := run P [VisibilityChange hidden; Clock 500001;
                   VisibilityChange visible] w1 in
  autoStart P = false
  /\ 0 < interval P
  /\ 0 < time P
  /\ 0 + time P <= 500001
  /\ endTime (data w1) = 0 + time P
  /\ counting (data w2) = false
  /\ emitted w2 = [EvStart; EvEnd].
Proof.
  cbv zeta.
  pose proof (late_start_is_cut_short (manual_props 10000 1000)
                0 500000 500001 eq_refl ltac:(simpl; lia) ltac:(simpl; lia))
    as H.
  cbv zeta in H. destruct H as (_ & _ & _ & He & _ & H).
  assert (Hle : 0 + time (manual_props 10000 1000) <= 500001)
    by (simpl; lia).
  split; [reflexivity|]. split; [simpl; lia|]. split; [simpl; lia|].
  split; [exact Hle|]. split; [exact He|].
  exact (H Hle).
Defined.


(** * The remaining time is never negative *)

(** The last step of a countdown of 10 by 3 overshoots by 2 inside
    [progress]; the [continuance] that [progress] ends with resets the
    remaining time, so the world it leaves has 0. *)
Example overshoot_is_reset :
  let P := manual_props 10 3 in
  let w := frames P [1; 4; 5; 8; 9; 12; 13] (launched P 0) in
  totalMilliseconds (data w) = 1
  /\ totalMilliseconds (data w) - interval P = -2
  /\ totalMilliseconds (data (animationFrame P 16 w)) = 0.
Proof. repeat split; reflexivity. Qed.

(** C3, as stated, fails: the configuration takes a negative [time] as it
    is, and the remaining time after the setup is that negative time. *)
Lemma never_negative_claim_fails : ~ never_negative_claim.
Proof.
  intros H.
  specialize (H {| autoStart := false; emitEvents := true;
                   interval := 1000; time := -5 |} visible 0 []).
  vm_compute in H. apply H. reflexivity.
Qed.

(** C3, amended: with a [time] prop that is not negative, after the setup
    and after any sequence of method calls, frames, visibility changes,
    clock moves and runs of the effect, the remaining time is not
    negative. *)
Theorem remaining_never_negative
  (P : Props) (v : VisibilityState) (c : Z) (ss : list Stimulus) :
  0 <= time P ->
  0 <= totalMilliseconds (data (run P ss (setup P v c))).
Proof.
  intros Ht.
  destruct (sound_run P ss _ (sound_setup P v c)) as [H _].
  exact (H Ht).
Qed.

Lemma remaining_never_negative_witness :
  0 <= time (countdown_props 10 3)
  /\ 0 <= totalMilliseconds
            (data (run (countdown_props 10 3)
                     [Frame 1; Frame 4; Clock 7; VisibilityChange hidden;
                      Clock 20; VisibilityChange visible; CallProgress;
                      CallAbort; CallStart; Frame 30; Frame 40]
                     (setup (countdown_props 10 3) visible 0))).
Proof.
  split; [simpl; lia|].
  apply (remaining_never_negative (countdown_props 10 3)). simpl. lia.
Defined.


(** * The last step *)

(** C5: the step that brings the remaining time to 0 emits no progress
    event: it leaves the engine idle with nothing remaining and, when
    events are emitted, exactly one more event, [end], which comes from the
    [continuance] that finds a delay of 0; and no progress event of any
    run carries a time that is not positive. *)
Theorem last_step_emits_end_only (P : Props) :
  (forall w,
      counting (data w) = true ->
      totalMilliseconds (data w) = interval P ->
      let w' := progress P w in
      counting (data w') = false
      /\ totalMilliseconds (data w') = 0
      /\ emitted w' = emitted w ++ (if emitEvents P then [EvEnd] else []))
  /\ (forall w,
         counting (data w) = true ->
         totalMilliseconds (data w) = 0 ->
         0 <= interval P ->
         Z.min (totalMilliseconds (data w)) (interval P) = 0
         /\ emitted (continuance P w)
            = emitted w ++ (if emitEvents P then [EvEnd] else []))
  /\ (forall v c ss,
         Forall positive_payload (emitted (run P ss (setup P v c)))).
Proof.
  split; [|split].
  - intros w Hc Ht. cbv zeta.
    rewrite (progress_last P w Hc Ht).
    destruct (end_counting P (set_totalMilliseconds 0 w)) as (H1 & H2 & _ & _ & H3);
      [exact Hc|].
    repeat split; assumption.
  - intros w Hc Ht Hi. split; [lia|].
    rewrite (continuance_ends P w Hc) by lia.
    destruct (end_counting P w Hc) as (_ & _ & _ & _ & He). exact He.
  - intros v c ss. apply (sound_run P ss _ (sound_setup P v c)).
Qed.

Lemma last_step_emits_end_only_witness :
  let P := countdown_props 1000 1000 in
  let w := frames P [1] (setup P visible 0) in
  counting (data w) = true
  /\ totalMilliseconds (data w) = interval P
  /\ emitted (progress P w) = emitted w ++ [EvEnd].
Proof.
  cbv zeta.
  destruct (last_step_emits_end_only (countdown_props 1000 1000))
    as (H & _).
  destruct (H (frames (countdown_props 1000 1000) [1]
                 (setup (countdown_props 1000 1000) visible 0))
              eq_refl eq_refl) as (_ & _ & He).
  split; [reflexivity|]. split; [reflexivity|]. exact He.
Defined.


(** * Props that the validators refuse *)

(** A negative [time], automatic start, hidden document: the engine counts,
    with the negative time as remaining time. *)
Example negative_time_counts :
  let P := {| autoStart := true; emitEvents := true;
              interval := 1000; time := -5 |} in
  time_validator (time P) = false
  /\ counting (data (setup P hidden 0)) = true
  /\ totalMilliseconds (data (setup P hidden 0)) = -5
  /\ emitted (setup P hidden 0) = [EvStart].
Proof. repeat split; reflexivity. Qed.

(** C6, as stated, fails: nothing refuses a negative [time], and the
    engine set up with it in a hidden document is counting. *)
Lemma never_counts_claim_fails : ~ never_counts_claim.
Proof.
  intros H.
  specialize (H {| autoStart := true; emitEvents := true;
                   interval := 1000; time := -5 |} hidden 0 []
                (or_introl eq_refl)).
  vm_compute in H. discriminate H.
Qed.

(** C6, amended: the validators of [time] and [interval] accept exactly
    the values that are not negative, and the setup goes ahead whatever
    they say, without clamping: the remaining time becomes the [time] prop
    and the end time the clock plus it; without automatic start the engine
    is idle; with it, in a hidden document, the engine counts; in a
    visible one, when [time] or [interval] is negative, the countdown
    starts and ends at once, leaving 0. *)
Theorem setup_does_not_reject (P : Props) (v : VisibilityState) (c : Z) :
  (time_validator (time P) = true <-> 0 <= time P)
  /\ (interval_validator (interval P) = true <-> 0 <= interval P)
  /\ endTime (data (setup P v c)) = c + time P
  /\ (autoStart P = false ->
      counting (data (setup P v c)) = false
      /\ totalMilliseconds (data (setup P v c)) = time P
      /\ emitted (setup P v c) = [])
  /\ (autoStart P = true -> v = hidden ->
      counting (data (setup P v c)) = true
      /\ totalMilliseconds (data (setup P v c)) = time P
      /\ emitted (setup P v c) = if emitEvents P then [EvStart] else [])
  /\ (autoStart P = true -> v = visible -> invalid P ->
      counting (data (setup P v c)) = false
      /\ totalMilliseconds (data (setup P v c)) = 0
      /\ callbacks (setup P v c) = []
      /\ emitted (setup P v c)
         = if emitEvents P then [EvStart; EvEnd] else []).
Proof.
  split; [apply Z.leb_le|]. split; [apply Z.leb_le|].
  split; [apply (setup_endTime P)|].
  unfold setup, watchEffect. simpl.
  split; [|split].
  - intros ->. repeat split.
  - intros -> ->. unfold start. simpl.
    destruct (emitEvents P); repeat split.
  - intros -> -> Hinv. unfold start. simpl.
    assert (Hd : Z.min (time P) (interval P) <= 0).
    { unfold invalid, time_validator, interval_validator in Hinv.
      destruct Hinv as [H | H]; apply Z.leb_gt in H; lia. }
    destruct (emitEvents P) eqn:He; simpl;
      rewrite continuance_ends by (simpl; auto);
      unfold end_; simpl; rewrite He; repeat split.
Qed.

Lemma setup_does_not_reject_witness :
  let P := {| autoStart := true; emitEvents := true;
              interval := -1; time := 5000 |} in
  invalid P
  /\ counting (data (setup P visible 0)) = false
  /\ emitted (setup P visible 0) = [EvStart; EvEnd].
Proof.
  cbv zeta.
  destruct (setup_does_not_reject
              {| autoStart := true; emitEvents := true;
                 interval := -1; time := 5000 |} visible 0)
    as (_ & _ & _ & _ & _ & H).
  assert (Hinv : invalid {| autoStart := true; emitEvents := true;
                            interval := -1; time := 5000 |})
    by (right; reflexivity).
  destruct (H eq_refl eq_refl Hinv) as (Hc & _ & _ & He).
  split; [exact Hinv|]. split; [exact Hc | exact He].
Defined.


(** * Resynchronisation *)

Section EndTime.

Variable P : Props.

Lemma endTime_continuance w :
  endTime (data (continuance P w)) = endTime (data w).
Proof.
  unfold continuance, end_. break_world w. simpl. break_ifs; reflexivity.
Qed.

Lemma endTime_progress w :
  endTime (data (progress P w)) = endTime (data w).
Proof.
  unfold progress. destruct (counting (data w)); simpl; [|reflexivity].
  rewrite endTime_continuance. break_ifs; reflexivity.
Qed.

Lemma endTime_step c t w :
  endTime (data (step P c t w)) = endTime (data w).
Proof.
  unfold step. break_ifs; [apply endTime_progress | reflexivity].
Qed.

Lemma endTime_frame t w :
  endTime (data (animationFrame P t w)) = endTime (data w).
Proof.
  unfold animationFrame.
  apply (run_callbacks_preserves P
           (fun w' => endTime (data w') = endTime (data w))).
  - intros l w' H. exact H.
  - intros c t' w' H. now rewrite endTime_step.
  - reflexivity.
Qed.

Lemma endTime_frames ts w :
  endTime (data (frames P ts w)) = endTime (data w).
Proof.
  revert w. induction ts as [|t ts IH]; intros w; simpl.
  - reflexivity.
  - now rewrite IH, endTime_frame.
Qed.

End EndTime.

(** C7: on a counting engine [update] sets the remaining time to
    [max (0, endTime - now ())] and touches nothing else; on an idle one
    it does nothing; and a countdown of 10000 by 1000 set up and started
    at clock 0, still counting when the document is hidden at clock 2500,
    has 2500 remaining right after the [update] of the visibility change
    at clock 7500, and after the whole handler. *)
Theorem resync_recomputes :
  (forall w,
      counting (data w) = true ->
      totalMilliseconds (data (update w))
      = Z.max 0 (endTime (data w) - clock w)
      /\ counting (data (update w)) = true
      /\ endTime (data (update w)) = endTime (data w)
      /\ callbacks (update w) = callbacks w
      /\ emitted (update w) = emitted w)
  /\ (forall w, counting (data w) = false -> update w = w)
  /\ (forall ts,
         let P := countdown_props 10000 1000 in
         let w1 := frames P ts (setup P visible 0) in
         let w2 := run P [Clock 2500; VisibilityChange hidden; Clock 7500] w1 in
         counting (data w1) = true ->
         totalMilliseconds (data (update (set_visibilityState visible w2)))
         = 2500
         /\ totalMilliseconds (data (react P (VisibilityChange visible) w2))
            = 2500).
Proof.
  split; [|split].
  - intros w Hc. unfold update. rewrite Hc. simpl. repeat split. exact Hc.
  - intros w Hc. unfold update. now rewrite Hc.
  - intros ts P w1 w2 Hc.
    assert (He : endTime (data w1) = 10000).
    { unfold w1. rewrite endTime_frames. apply (setup_endTime P). }
    assert (Hu : update (set_visibilityState visible w2)
                 = set_totalMilliseconds 2500
                     (set_visibilityState visible w2)).
    { unfold update, w2. simpl. rewrite Hc, He. reflexivity. }
    split.
    + rewrite Hu. reflexivity.
    + simpl. unfold handleVisibilityChange.
      change (visibilityState (set_visibilityState visible w2)) with visible.
      cbv iota. rewrite Hu.
      rewrite continuance_schedules.
      * reflexivity.
      * unfold w2. simpl. exact Hc.
      * simpl. lia.
Qed.

Lemma resync_recomputes_witness :
  let P := countdown_props 10000 1000 in
  let w1 := frames P [1; 1001; 1002; 2002] (setup P visible 0) in
  let w2 := run P [Clock 2500; VisibilityChange hidden; Clock 7500] w1 in
  counting (data w1) = true
  /\ totalMilliseconds (data w1) = 8000
  /\ totalMilliseconds (data (react P (VisibilityChange visible) w2)) = 2500.
Proof.
  cbv zeta.
  destruct resync_recomputes as (_ & _ & H).
  destruct (H [1; 1001; 1002; 2002] eq_refl) as (_ & Hv).
  split; [reflexivity|]. split; [reflexivity | exact Hv].
Defined.


(** * [abort] *)

Lemma find_after_remove h l : find_handle h (remove_handle h l) = None.
Proof.
  induction l as [|[h' c] l IH]; simpl; [reflexivity|].
  destruct (Nat.eqb h h') eqn:E; [exact IH|].
  simpl. now rewrite E.
Qed.

(** [abort] call by call, and what follows it as long as the effect does
    not run again ([autoStart] off): it does nothing on an idle engine; on
    a counting one it
    cancels the frame callback whose handle is [data.requestId], leaves
    the engine idle with the remaining time and the end time as they were,
    and emits [abort] when events are emitted; whatever happens next,
    short of a new start, emits nothing more, so [end] never follows;
    and a [start] after it counts again from the remaining time that was
    kept (ending at once only if that time or the interval leaves no
    delay). *)
Theorem abort_keeps_remaining (P : Props) (w : World) :
  (counting (data w) = false -> abort P w = w)
  /\ (counting (data w) = true ->
      let w' := abort P w in
      let r := totalMilliseconds (data w) in
      let delay := Z.min r (interval P) in
      counting (data w') = false
      /\ totalMilliseconds (data w') = r
      /\ endTime (data w') = endTime (data w)
      /\ callbacks w' = remove_handle (requestId (data w)) (callbacks w)
      /\ find_handle (requestId (data w)) (callbacks w') = None
      /\ (forall c, callbacks w = [(requestId (data w), c)] ->
                    callbacks w' = [])
      /\ emitted w' = emitted w ++ (if emitEvents P then [EvAbort] else [])
      /\ (forall ss,
             forallb (fun s => negb (starts s)) ss = true ->
             emitted (run P ss w') = emitted w'
             /\ totalMilliseconds (data (run P ss w')) = r
             /\ counting (data (run P ss w')) = false)
      /\ (visibilityState w = hidden ->
          counting (data (start P w')) = true
          /\ totalMilliseconds (data (start P w')) = r)
      /\ (visibilityState w = visible -> 0 < delay ->
          counting (data (start P w')) = true
          /\ totalMilliseconds (data (start P w')) = r
          /\ callbacks (start P w')
             = callbacks w'
                 ++ [(nextHandle w,
                      {| delay := delay; init := None; prev := None |})])
      /\ (visibilityState w = visible -> delay <= 0 ->
          counting (data (start P w')) = false
          /\ totalMilliseconds (data (start P w')) = 0)).
Proof.
  split.
  - intros Hc. unfold abort. now rewrite Hc.
  - intros Hc w' r delay.
    assert (E : w' = (if emitEvents P then emit EvAbort else fun x => x)
                       (set_counting false (pause w))).
    { unfold w', abort. rewrite Hc. simpl. now destruct (emitEvents P). }
    assert (Hidle : counting (data w') = false)
      by (rewrite E; now destruct (emitEvents P)).
    assert (Hr : totalMilliseconds (data w') = r)
      by (rewrite E; now destruct (emitEvents P)).
    assert (Hcb : callbacks w'
                  = remove_handle (requestId (data w)) (callbacks w))
      by (rewrite E; now destruct (emitEvents P)).
    assert (Hvis : visibilityState w' = visibilityState w)
      by (rewrite E; now destruct (emitEvents P)).
    assert (Hnh : nextHandle w' = nextHandle w)
      by (rewrite E; now destruct (emitEvents P)).
    pose proof (start_hidden P w' Hidle) as Hhid.
    pose proof (start_visible P w' Hidle) as Hvis1.
    pose proof (start_visible_ends P w' Hidle) as Hvis2.
    rewrite Hvis, Hr in *. rewrite Hnh in Hvis1.
    repeat split; try assumption.
    + rewrite E. now destruct (emitEvents P).
    + rewrite Hcb. apply find_after_remove.
    + intros c Hone. rewrite Hcb, Hone. simpl. now rewrite Nat.eqb_refl.
    + rewrite E. destruct (emitEvents P); simpl; auto using app_nil_r.
    + apply (idle_run P (emitted w') r ss w' H). repeat split; assumption.
    + apply (idle_run P (emitted w') r ss w' H). repeat split; assumption.
    + apply (idle_run P (emitted w') r ss w' H). repeat split; assumption.
    + apply Hhid, H.
    + apply Hhid, H.
    + apply (Hvis1 H H0).
    + apply (Hvis1 H H0).
    + apply (Hvis1 H H0).
    + apply (Hvis2 H H0).
    + apply (Hvis2 H H0).
Qed.

Lemma abort_keeps_remaining_witness :
  let P := manual_props 10000 1000 in
  let w := frames P [1; 1001; 1002] (launched P 0) in
  counting (data w) = true
  /\ totalMilliseconds (data w) = 9000
  /\ totalMilliseconds (data (abort P w)) = 9000
  /\ emitted (abort P w) = [EvStart; EvProgress 9000; EvAbort]
  /\ totalMilliseconds (data (start P (abort P w))) = 9000.
Proof.
  cbv zeta.
  destruct (abort_keeps_remaining (manual_props 10000 1000)
              (frames (manual_props 10000 1000) [1; 1001; 1002]
                 (launched (manual_props 10000 1000) 0)))
    as (_ & H).
  destruct (H eq_refl) as (_ & Hr & _ & _ & _ & _ & He & _ & _ & Hv & _).
  destruct (Hv eq_refl ltac:(vm_compute; reflexivity)) as (_ & Hs & _).
  split; [reflexivity|]. split; [reflexivity|].
  split; [exact Hr|]. split; [exact He | exact Hs].
Defined.

(** C8: an aborted engine is to stay idle with its remaining time until
    the next [start], and with [autoStart] on the code does not keep it
    so.  [abort] writes [data.counting] (line 245), which the effect has
    read in [start] (line 128), so that the effect runs again after it:
    the remaining time is rewound to the [time] prop, [start] is called
    and emitted, and the engine counts again from the whole time. *)
Theorem abort_is_undone_by_effect (P : Props) (w : World) :
  autoStart P = true ->
  counting (data w) = true ->
  0 < Z.min (time P) (interval P) ->
  let w' := run P [CallAbort; Effect] w in
  counting (data (abort P w)) = false
  /\ totalMilliseconds (data (abort P w)) = totalMilliseconds (data w)
  /\ counting (data w') = true
  /\ totalMilliseconds (data w') = time P
  /\ endTime (data w') = clock w + time P
  /\ emitted w'
     = emitted w ++ (if emitEvents P then [EvAbort; EvStart] else []).
Proof.
  intros Hauto Hc Hd. cbv zeta. simpl.
  assert (Hd1 : (0 <? Z.min (time P) (interval P)) = true)
    by (apply Z.ltb_lt; exact Hd).
  unfold watchEffect, abort. rewrite Hauto, Hc. simpl.
  destruct (emitEvents P) eqn:He; simpl;
    unfold start; simpl; rewrite ?He; simpl;
    (destruct (visibilityState w); simpl;
     [ unfold continuance; simpl; rewrite Hd1; simpl | ];
     rewrite <- ?app_assoc, ?app_nil_r;
     repeat split; reflexivity).
Qed.

Lemma abort_is_undone_by_effect_witness :
  let P := countdown_props 10000 1000 in
  let w := setup P visible 0 in
  autoStart P = true
  /\ counting (data w) = true
  /\ 0 < Z.min (time P) (interval P)
  /\ counting (data (run P [CallAbort; Effect] w)) = true
  /\ totalMilliseconds (data (run P [CallAbort; Effect] w)) = time P
  /\ emitted (run P [CallAbort; Effect] w) = [EvStart; EvAbort; EvStart].
Proof.
  cbv zeta.
  assert (Hd : 0 < Z.min (time (countdown_props 10000 1000))
                     (interval (countdown_props 10000 1000)))
    by (simpl; lia).
  pose proof (abort_is_undone_by_effect (countdown_props 10000 1000)
                (setup (countdown_props 10000 1000) visible 0)
                eq_refl eq_refl Hd) as H.
  cbv zeta in H. destruct H as (_ & _ & H1 & H2 & _ & H3).
  split; [reflexivity|]. split; [reflexivity|]. split; [exact Hd|].
  split; [exact H1|]. split; [exact H2 | exact H3].
Defined.


(** * Nothing to count *)

(** C9: with an [interval] of 0, whatever the [time], and with a [time]
    of 0, whatever the [interval], the countdown started in a visible
    document ends at once: the first [continuance] finds a delay
    [min (remaining, interval)] that is 0 (for props that are not
    negative) and calls [end]; [start] is followed by [end] with no
    progress event, nothing remains and nothing is pending. *)
Theorem nothing_to_count (P : Props) (c : Z) :
  interval P = 0 \/ time P = 0 ->
  let w := launched P c in
  counting (data w) = false
  /\ totalMilliseconds (data w) = 0
  /\ callbacks w = []
  /\ emitted w = (if emitEvents P then [EvStart; EvEnd] else [])
  /\ progress_count (emitted w) = 0%nat
  /\ (0 <= time P -> 0 <= interval P -> Z.min (time P) (interval P) = 0).
Proof.
  intros Hz w.
  assert (Hd : Z.min (time P) (interval P) <= 0) by lia.
  assert (E : w = end_ P ((if emitEvents P then emit EvStart else fun x => x)
                            (set_counting true
                               (set_endTime (c + time P)
                                  (set_totalMilliseconds (time P)
                                     (initial_world visible c)))))).
  { unfold w, launched, setup, watchEffect. simpl.
    assert (S : forall w0,
               counting (data w0) = false -> visibilityState w0 = visible ->
               totalMilliseconds (data w0) = time P ->
               start P w0
               = end_ P ((if emitEvents P then emit EvStart else fun x => x)
                           (set_counting true w0))).
    { intros w0 Hc Hv Ht. unfold start. rewrite Hc.
      destruct (emitEvents P); simpl; rewrite Hv;
        apply continuance_ends; simpl; auto; rewrite Ht; exact Hd. }
    destruct (autoStart P); apply S; reflexivity. }
  assert (He : emitted w = if emitEvents P then [EvStart; EvEnd] else []).
  { rewrite E. unfold end_. destruct (emitEvents P) eqn:Hem; simpl;
      rewrite ?Hem; reflexivity. }
  repeat split.
  - rewrite E. unfold end_. destruct (emitEvents P) eqn:Hem; simpl;
      rewrite ?Hem; reflexivity.
  - rewrite E. unfold end_. destruct (emitEvents P) eqn:Hem; simpl;
      rewrite ?Hem; reflexivity.
  - rewrite E. unfold end_. destruct (emitEvents P) eqn:Hem; simpl;
      rewrite ?Hem; reflexivity.
  - exact He.
  - rewrite He. now destruct (emitEvents P).
  - lia.
Qed.

Lemma nothing_to_count_witness :
  interval (countdown_props 5000 0) = 0
  /\ emitted (launched (countdown_props 5000 0) 0) = [EvStart; EvEnd]
  /\ emitted (launched (countdown_props 0 1000) 0) = [EvStart; EvEnd].
Proof.
  destruct (nothing_to_count (countdown_props 5000 0) 0 (or_introl eq_refl))
    as (_ & _ & _ & H1 & _).
  destruct (nothing_to_count (countdown_props 0 1000) 0 (or_intror eq_refl))
    as (_ & _ & _ & H2 & _).
  split; [reflexivity|]. split; [exact H1 | exact H2].
Defined.


(** * More on the breakdown *)

Module Units.

(** X1: the unit fields are the digits of the remaining time: whatever
    non-negative days and in-range hours, minutes, seconds and
    milliseconds are put together, the computed values give them back. *)
Theorem breakdown_of_recombine (d h m s ms : Z) :
  0 <= d -> 0 <= h < 24 -> 0 <= m < 60 -> 0 <= s < 60 -> 0 <= ms < 1000 ->
  let r := recombine d h m s ms in
  days r = d /\ hours r = h /\ minutes r = m /\ seconds r = s
  /\ milliseconds r = ms.
Proof.
  intros Hd Hh Hm Hs Hms r.
  assert (Hr : 0 <= r) by (unfold r, recombine; Breakdown.unfold_units; lia).
  assert (Er : r = d * 86400000 + h * 3600000 + m * 60000 + s * 1000 + ms)
    by (unfold r, recombine; Breakdown.unfold_units; lia).
  clearbody r. Breakdown.to_mod r.
  repeat split.
  - symmetry. apply Z.div_unique with (r := h * 3600000 + m * 60000 + s * 1000 + ms); lia.
  - replace (r mod 86400000) with (h * 3600000 + m * 60000 + s * 1000 + ms).
    + symmetry. apply Z.div_unique with (r := m * 60000 + s * 1000 + ms); lia.
    + apply Z.mod_unique with (q := d); lia.
  - replace (r mod 3600000) with (m * 60000 + s * 1000 + ms).
    + symmetry. apply Z.div_unique with (r := s * 1000 + ms); lia.
    + apply Z.mod_unique with (q := d * 24 + h); lia.
  - replace (r mod 60000) with (s * 1000 + ms).
    + symmetry. apply Z.div_unique with (r := ms); lia.
    + apply Z.mod_unique with (q := (d * 24 + h) * 60 + m); lia.
  - symmetry. apply Z.mod_unique with (q := ((d * 24 + h) * 60 + m) * 60 + s); lia.
Qed.

Lemma breakdown_of_recombine_witness :
  (0 <= 2 /\ 0 <= 23 < 24 /\ 0 <= 59 < 60 /\ 0 <= 30 < 60 /\ 0 <= 125 < 1000)
  /\ days (recombine 2 23 59 30 125) = 2
  /\ hours (recombine 2 23 59 30 125) = 23.
Proof.
  pose proof (breakdown_of_recombine 2 23 59 30 125
                ltac:(lia) ltac:(lia) ltac:(lia) ltac:(lia) ltac:(lia))
    as (Hd & Hh & _).
  split; [lia|]. split; [exact Hd | exact Hh].
Defined.

(** X2: the cumulative totals agree with the unit fields: each total is the
    next larger total times its ratio plus the unit field, down to the
    remaining time itself. *)
Theorem totals_agree_with_units (r : Z) :
  0 <= r ->
  totalHours r = 24 * days r + hours r
  /\ totalMinutes r = 60 * totalHours r + minutes r
  /\ totalSeconds r = 60 * totalMinutes r + seconds r
  /\ r = 1000 * totalSeconds r + milliseconds r.
Proof.
  intros Hr. Breakdown.to_mod r.
  Z.to_euclidean_division_equations. lia.
Qed.

Lemma totals_agree_with_units_witness :
  0 <= 90125
  /\ totalSeconds 90125 = 60 * totalMinutes 90125 + seconds 90125.
Proof.
  split; [lia|].
  pose proof (totals_agree_with_units 90125 ltac:(lia)) as (_ & _ & H & _).
  exact H.
Defined.

(** X3: as the remaining time goes down, no displayed total goes up. *)
Theorem totals_monotone (r1 r2 : Z) :
  r1 <= r2 ->
  days r1 <= days r2 /\ totalHours r1 <= totalHours r2
  /\ totalMinutes r1 <= totalMinutes r2 /\ totalSeconds r1 <= totalSeconds r2.
Proof.
  intros H. Breakdown.unfold_units.
  repeat split; apply Z.div_le_mono; lia.
Qed.

Lemma totals_monotone_witness :
  59999 <= 60000 /\ totalMinutes 59999 <= totalMinutes 60000.
Proof.
  split; [lia|].
  pose proof (totals_monotone 59999 60000 ltac:(lia)) as (_ & _ & H & _).
  exact H.
Defined.

End Units.


(** * Calling a method twice *)

Section Twice.

Variable P : Props.

Lemma remove_handle_twice h l :
  remove_handle h (remove_handle h l) = remove_handle h l.
Proof.
  induction l as [|[h' c] l IH]; simpl; [reflexivity|].
  destruct (Nat.eqb h h') eqn:E; [exact IH|].
  simpl. rewrite E, IH. reflexivity.
Qed.

Lemma remove_absent h l :
  find_handle h l = None -> remove_handle h l = l.
Proof.
  induction l as [|[h' c] l IH]; simpl; [reflexivity|].
  destruct (Nat.eqb h h'); [discriminate|].
  intros H. now rewrite IH.
Qed.

(** X4: [pause] touches the callback map only: it drops the callback of
    [data.requestId] and nothing else, so a second [pause] changes
    nothing, and neither does a [pause] with no such callback pending. *)
Theorem pause_only_cancels (w : World) :
  data (pause w) = data w
  /\ emitted (pause w) = emitted w
  /\ find_handle (requestId (data w)) (callbacks (pause w)) = None
  /\ (forall h, h <> requestId (data w) ->
                find_handle h (callbacks (pause w))
                = find_handle h (callbacks w))
  /\ pause (pause w) = pause w
  /\ (find_handle (requestId (data w)) (callbacks w) = None -> pause w = w).
Proof.
  break_world w. unfold pause, cancelAnimationFrame. simpl.
  repeat split.
  - apply find_after_remove.
  - intros h Hh. induction cbs as [|[h' c] l IH]; simpl; [reflexivity|].
    destruct (Nat.eqb rid h') eqn:E1; simpl.
    + apply Nat.eqb_eq in E1. subst h'.
      destruct (Nat.eqb h rid) eqn:E2; [|exact IH].
      apply Nat.eqb_eq in E2. contradiction.
    + destruct (Nat.eqb h h'); [reflexivity | exact IH].
  - unfold set_callbacks. simpl. now rewrite remove_handle_twice.
  - intros H. unfold set_callbacks. simpl. now rewrite remove_absent.
Qed.

(** X5: [abort] and [end] are idempotent, and each is without effect after
    the other: one call closes the countdown, with one event. *)
Theorem closing_once (w : World) :
  abort P (abort P w) = abort P w
  /\ end_ P (end_ P w) = end_ P w
  /\ end_ P (abort P w) = abort P w
  /\ abort P (end_ P w) = end_ P w.
Proof.
  assert (Ha : counting (data (abort P w)) = false).
  { unfold abort. destruct (counting (data w)) eqn:Hc; simpl; [|exact Hc].
    now destruct (emitEvents P). }
  assert (He : counting (data (end_ P w)) = false).
  { unfold end_. destruct (counting (data w)) eqn:Hc; simpl; [|exact Hc].
    now destruct (emitEvents P). }
  repeat split.
  - unfold abort at 1. now rewrite Ha.
  - unfold end_ at 1. now rewrite He.
  - unfold end_ at 1. now rewrite Ha.
  - unfold abort at 1. now rewrite He.
Qed.

(** X6: a second [start] right after a first changes nothing, so that one
    [start] event is emitted, as long as the first left the engine
    counting: in a hidden document, or with a positive remaining time and
    interval. *)
Theorem start_twice (w : World) :
  visibilityState w = hidden
  \/ 0 < Z.min (totalMilliseconds (data w)) (interval P) ->
  start P (start P w) = start P w.
Proof.
  intros H. apply start_counting.
  destruct (counting (data w)) eqn:Hc.
  - now rewrite start_counting.
  - destruct H as [H | H].
    + apply (start_hidden P w Hc H).
    + destruct (visibilityState w) eqn:Hv.
      * apply (start_visible P w Hc Hv H).
      * apply (start_hidden P w Hc Hv).
Qed.

(** X7: with nothing to wait for in a visible document every [start] runs a
    whole countdown: [start] and [end] are emitted again. *)
Theorem start_again_when_nothing_to_wait (w : World) :
  counting (data w) = false ->
  visibilityState w = visible ->
  Z.min (totalMilliseconds (data w)) (interval P) <= 0 ->
  emitEvents P = true ->
  emitted (start P (start P w))
  = emitted w ++ [EvStart; EvEnd; EvStart; EvEnd].
Proof.
  intros Hc Hv Hd He.
  destruct (start_visible_ends P w Hc Hv Hd) as (Hc1 & Ht1 & _ & He1).
  assert (Hv1 : visibilityState (start P w) = visible).
  { unfold start. rewrite Hc, He. simpl. rewrite Hv.
    rewrite continuance_ends by (simpl; auto).
    unfold end_. simpl. rewrite He. exact Hv. }
  destruct (start_visible_ends P (start P w) Hc1 Hv1) as (_ & _ & _ & He2).
  { rewrite Ht1. lia. }
  rewrite He2, He1, He. rewrite <- !app_assoc. reflexivity.
Qed.

End Twice.

Lemma pause_only_cancels_witness :
  find_handle (requestId (data (initial_world visible 0)))
    (callbacks (initial_world visible 0)) = None
  /\ pause (initial_world visible 0) = initial_world visible 0.
Proof.
  split; [reflexivity|].
  apply (pause_only_cancels (initial_world visible 0)). reflexivity.
Defined.

Lemma start_twice_witness :
  (visibilityState (initial_world hidden 0) = hidden
   \/ 0 < Z.min (totalMilliseconds (data (initial_world hidden 0)))
              (interval (countdown_props 5000 1000)))
  /\ start (countdown_props 5000 1000)
       (start (countdown_props 5000 1000) (initial_world hidden 0))
     = start (countdown_props 5000 1000) (initial_world hidden 0).
Proof.
  split; [left; reflexivity|].
  apply (start_twice (countdown_props 5000 1000) (initial_world hidden 0)).
  left. reflexivity.
Defined.

Lemma start_again_when_nothing_to_wait_witness :
  let P := countdown_props 0 1000 in
  let w := initial_world visible 0 in
  counting (data w) = false
  /\ visibilityState w = visible
  /\ Z.min (totalMilliseconds (data w)) (interval P) <= 0
  /\ emitEvents P = true
  /\ emitted (start P (start P w)) = [EvStart; EvEnd; EvStart; EvEnd].
Proof.
  cbv zeta.
  assert (Hd : Z.min (totalMilliseconds (data (initial_world visible 0)))
                 (interval (countdown_props 0 1000)) <= 0)
    by (vm_compute; discriminate).
  split; [reflexivity|]. split; [reflexivity|]. split; [exact Hd|].
  split; [reflexivity|].
  exact (start_again_when_nothing_to_wait (countdown_props 0 1000)
           (initial_world visible 0) eq_refl eq_refl Hd eq_refl).
Defined.


(** * The end time and the remaining time *)

Section Times.

Variable P : Props.

Lemma endTime_react s w :
  is_effect s = false ->
  endTime (data (react P s w)) = endTime (data w).
Proof.
  intros Hs. destruct s; simpl in *; try discriminate.
  - apply start_endTime.
  - apply endTime_continuance.
  - reflexivity.
  - apply endTime_progress.
  - unfold abort. break_world w. simpl. break_ifs; reflexivity.
  - unfold end_. break_world w. simpl. break_ifs; reflexivity.
  - unfold update. break_world w. simpl. break_ifs; reflexivity.
  - unfold handleVisibilityChange.
    destruct (visibilityState w); [|reflexivity].
    rewrite endTime_continuance.
    unfold update. break_world w. simpl. break_ifs; reflexivity.
  - apply endTime_frame.
  - unfold handleVisibilityChange. destruct v; simpl; [|reflexivity].
    rewrite endTime_continuance.
    unfold update. break_world w. simpl. break_ifs; reflexivity.
  - reflexivity.
Qed.

(** X8: the end time is written by the effect only: whatever else happens
    after the setup at clock [c] (starts, aborts, frames, visibility
    changes, clock moves), it stays [c + time]; in particular the time
    spent aborted is not added to it. *)
Theorem endTime_fixed_by_setup (v : VisibilityState) (c : Z)
  (ss : list Stimulus) :
  forallb (fun s => negb (is_effect s)) ss = true ->
  endTime (data (run P ss (setup P v c))) = c + time P.
Proof.
  intros H. rewrite <- (setup_endTime P v c).
  generalize (setup P v c). revert H.
  induction ss as [|s ss IH]; intros H w; simpl in *.
  - reflexivity.
  - apply andb_prop in H. destruct H as [Hs H].
    rewrite (IH H). apply endTime_react. now destruct (is_effect s).
Qed.

(** X9: with [autoStart] off, so that the effect does not run again
    between the frames, animation frames never raise the remaining time,
    when the interval is not negative: whatever callbacks are pending and
    whatever their timestamps, the remaining time after the frames is
    between 0 and what it was. *)
Theorem frames_never_raise (ts : list Z) (w : World) :
  autoStart P = false ->
  0 <= interval P ->
  0 <= totalMilliseconds (data w) ->
  0 <= totalMilliseconds (data (frames P ts w)) <= totalMilliseconds (data w).
Proof.
  intros _ Hi. revert w. induction ts as [|t ts IH]; intros w Hw; simpl.
  - lia.
  - assert (Hf : 0 <= totalMilliseconds (data (animationFrame P t w))
                 <= totalMilliseconds (data w)).
    { unfold animationFrame.
      apply (run_callbacks_preserves P
               (fun w' => 0 <= totalMilliseconds (data w')
                          <= totalMilliseconds (data w))).
      - intros l w' H. exact H.
      - intros c t' w' H. unfold step.
        destruct (_ || _); [|exact H].
        unfold progress, continuance, end_.
        break_world w'. destruct cnt; simpl in *; [|exact H].
        destruct (emitEvents P && (0 <? tot - interval P)); simpl;
          destruct (0 <? Z.min (tot - interval P) (interval P)) eqn:Hd;
          simpl; try (apply Z.ltb_lt in Hd; lia);
          destruct (emitEvents P); simpl; lia.
      - lia. }
    specialize (IH (animationFrame P t w) ltac:(lia)). lia.
Qed.

(** X10: back in the foreground: the handler of a change to [visible] on a
    counting engine with a positive interval leaves
    [max (0, endTime - now ())] as remaining time, whatever it was before;
    before the end time the engine counts on and nothing is emitted; at
    or after it the countdown is closed at once, with [end] as the only
    event, however many steps were missed. *)
Theorem foreground_return (w : World) :
  counting (data w) = true ->
  0 < interval P ->
  let w' := react P (VisibilityChange visible) w in
  totalMilliseconds (data w') = Z.max 0 (endTime (data w) - clock w)
  /\ (clock w < endTime (data w) ->
      counting (data w') = true
      /\ emitted w' = emitted w
      /\ callbacks w'
         = callbacks w
             ++ [(nextHandle w,
                  fresh (Z.min (endTime (data w) - clock w) (interval P)))])
  /\ (endTime (data w) <= clock w ->
      counting (data w') = false
      /\ emitted w' = emitted w ++ (if emitEvents P then [EvEnd] else [])).
Proof.
  intros Hc Hi. cbv zeta. simpl. unfold handleVisibilityChange. simpl.
  unfold update. simpl. rewrite Hc.
  destruct (Z_lt_le_dec (clock w) (endTime (data w))) as [Hlt | Hge].
  - rewrite continuance_schedules by (simpl; auto; lia).
    simpl. unfold fresh.
    rewrite (Z.max_r 0 (endTime (data w) - clock w)) by lia.
    repeat split; first [assumption | reflexivity | lia].
  - rewrite continuance_ends by (simpl; auto; lia).
    unfold end_. simpl. rewrite Hc. simpl.
    destruct (emitEvents P); simpl; repeat split;
      first [lia | reflexivity | symmetry; apply app_nil_r].
Qed.

End Times.

Lemma endTime_fixed_by_setup_witness :
  forallb (fun s => negb (is_effect s))
    [Frame 1; Frame 1001; CallAbort; Clock 60000; CallStart] = true
  /\ endTime (data (run (countdown_props 10000 1000)
                      [Frame 1; Frame 1001; CallAbort; Clock 60000; CallStart]
                      (setup (countdown_props 10000 1000) visible 0)))
     = 0 + time (countdown_props 10000 1000).
Proof.
  split; [reflexivity|].
  apply (endTime_fixed_by_setup (countdown_props 10000 1000)). reflexivity.
Defined.

Lemma frames_never_raise_witness :
  autoStart (manual_props 10 3) = false
  /\ 0 <= interval (manual_props 10 3)
  /\ 0 <= totalMilliseconds (data (launched (manual_props 10 3) 0))
  /\ totalMilliseconds
       (data (frames (manual_props 10 3) [1; 4; 5]
                (launched (manual_props 10 3) 0))) <= 10.
Proof.
  split; [reflexivity|]. split; [simpl; lia|]. split; [simpl; lia|].
  apply (frames_never_raise (manual_props 10 3) [1; 4; 5]
           (launched (manual_props 10 3) 0));
    [reflexivity | simpl; lia | simpl; lia].
Defined.

Lemma foreground_return_witness :
  let P := countdown_props 10000 1000 in
  let w := run P [Clock 20000; VisibilityChange hidden] (setup P visible 0) in
  counting (data w) = true
  /\ 0 < interval P
  /\ endTime (data w) <= clock w
  /\ emitted (react P (VisibilityChange visible) w) = [EvStart; EvEnd].
Proof.
  cbv zeta.
  pose proof (foreground_return (countdown_props 10000 1000)
                (run (countdown_props 10000 1000)
                   [Clock 20000; VisibilityChange hidden]
                   (setup (countdown_props 10000 1000) visible 0))
                eq_refl ltac:(simpl; lia)) as H.
  cbv zeta in H. destruct H as (_ & _ & H).
  assert (Hle : 10000 <= 20000) by lia.
  split; [reflexivity|]. split; [simpl; lia|]. split; [exact Hle|].
  exact (proj2 (H Hle)).
Defined.


(** * One pending callback *)

Section Pending.

Variable P : Props.

Lemma one_pending_idle w :
  one_pending w -> counting (data w) = false -> callbacks w = [].
Proof.
  intros [H | (c & _ & Hc & _)] Hi; [exact H | congruence].
Qed.

Lemma one_pending_hidden w :
  one_pending w -> visibilityState w = hidden -> callbacks w = [].
Proof.
  intros [H | (c & _ & _ & Hv)] Hh; [exact H | congruence].
Qed.

Lemma one_pending_pause w : one_pending w -> callbacks (pause w) = [].
Proof.
  intros [H | (c & H & _)]; unfold pause, cancelAnimationFrame; simpl;
    rewrite H; simpl; [reflexivity | now rewrite Nat.eqb_refl].
Qed.

(** [continuance] with nothing pending, in a visible document. *)
Lemma one_pending_continuance w :
  callbacks w = [] -> visibilityState w = visible ->
  one_pending (continuance P w).
Proof.
  intros Hcb Hv. unfold continuance.
  destruct (counting (data w)) eqn:Hc; simpl; [|left; exact Hcb].
  destruct (0 <? _).
  - right. eexists. unfold requestAnimationFrame. simpl. rewrite Hcb.
    repeat split; assumption.
  - left. unfold end_. rewrite Hc. simpl.
    destruct (emitEvents P); simpl; rewrite Hcb; reflexivity.
Qed.

Lemma one_pending_start w : one_pending w -> one_pending (start P w).
Proof.
  intros H. unfold start.
  destruct (counting (data w)) eqn:Hc; [exact H|].
  pose proof (one_pending_idle w H Hc) as Hcb.
  destruct (emitEvents P); simpl;
    (destruct (visibilityState w) eqn:Hv;
     [apply one_pending_continuance; assumption | left; exact Hcb]).
Qed.

Lemma one_pending_abort w : one_pending w -> one_pending (abort P w).
Proof.
  intros H. unfold abort.
  destruct (counting (data w)); simpl; [|exact H].
  left. destruct (emitEvents P); simpl; apply (one_pending_pause w H).
Qed.

Lemma one_pending_end w : one_pending w -> one_pending (end_ P w).
Proof.
  intros H. unfold end_.
  destruct (counting (data w)); simpl; [|exact H].
  left. destruct (emitEvents P); simpl; apply (one_pending_pause w H).
Qed.

Lemma one_pending_frame t w : one_pending w -> one_pending (animationFrame P t w).
Proof.
  intros [H | (c & H & Hc & Hv)].
  - left. unfold animationFrame. rewrite H. simpl. exact H.
  - rewrite (frame_single P w _ c t H). unfold step.
    destruct (_ || _).
    + unfold progress. simpl. rewrite Hc. simpl.
      apply one_pending_continuance;
        destruct (emitEvents P && _); simpl; auto.
    + right. eexists. unfold requestAnimationFrame. simpl.
      repeat split; assumption.
Qed.

Lemma one_pending_visibility v w :
  same_visibility v (visibilityState w) = false ->
  one_pending w ->
  one_pending (handleVisibilityChange P (set_visibilityState v w)).
Proof.
  intros Hv H. unfold handleVisibilityChange. destruct v; simpl.
  - destruct (visibilityState w) eqn:Hw; [discriminate|].
    pose proof (one_pending_hidden w H Hw) as Hcb.
    apply one_pending_continuance;
      unfold update; simpl; destruct (counting (data w)); auto.
  - left. apply (one_pending_pause w H).
Qed.

Lemma one_pending_watchEffect w : one_pending w -> one_pending (watchEffect P w).
Proof.
  intros H. unfold watchEffect.
  assert (H1 : one_pending
                 (set_endTime (clock (set_totalMilliseconds (time P) w) + time P)
                    (set_totalMilliseconds (time P) w))).
  { destruct H as [H | (c & H & Hc & Hv)]; [left; exact H|].
    right. exists c. repeat split; assumption. }
  destruct (autoStart P); [apply one_pending_start, H1 | exact H1].
Qed.

Lemma one_pending_react s w :
  outside w s = true -> one_pending w -> one_pending (react P s w).
Proof.
  intros Hs H. destruct s; simpl in *; try discriminate.
  - apply one_pending_start, H.
  - apply one_pending_abort, H.
  - apply one_pending_end, H.
  - apply one_pending_frame, H.
  - apply one_pending_visibility; [|exact H].
    now destruct (same_visibility v (visibilityState w)).
  - destruct H as [H | (c' & H & Hc & Hv)]; [left; exact H|].
    right. exists c'. repeat split; assumption.
  - apply one_pending_watchEffect, H.
Qed.

Lemma one_pending_run ss :
  forall w, all_outside P ss w = true -> one_pending w ->
            one_pending (run P ss w).
Proof.
  induction ss as [|s ss IH]; intros w Hs H; simpl in *.
  - exact H.
  - apply andb_prop in Hs. destruct Hs as [Hs Hss].
    apply IH; [exact Hss|]. apply one_pending_react; assumption.
Qed.

Lemma one_pending_setup v c : one_pending (setup P v c).
Proof.
  apply one_pending_watchEffect. left. reflexivity.
Qed.

(** X11: the engine never has more than one frame callback pending: after the
    setup and any stimuli from outside (public methods, frames, changes of
    visibility, clock, effect), at most one callback is pending; if one
    is, it is the one [pause] would cancel, the engine counts and the
    document is visible. *)
Theorem never_two_pending (v : VisibilityState) (c : Z) (ss : list Stimulus) :
  all_outside P ss (setup P v c) = true ->
  let w := run P ss (setup P v c) in
  (length (callbacks w) <= 1)%nat
  /\ (forall h cl, In (h, cl) (callbacks w) ->
                   h = requestId (data w)
                   /\ counting (data w) = true
                   /\ visibilityState w = visible)
  /\ callbacks (pause w) = [].
Proof.
  intros Hs w.
  pose proof (one_pending_run ss _ Hs (one_pending_setup v c)) as H.
  fold w in H. split; [|split].
  - destruct H as [H | (cl & H & _)]; rewrite H; simpl; lia.
  - intros h cl Hin. destruct H as [H | (cl' & H & Hc & Hv)];
      rewrite H in Hin; simpl in Hin; [contradiction|].
    destruct Hin as [E | []]. inversion E; subst. repeat split; assumption.
  - apply one_pending_pause, H.
Qed.

(** X12: while the document is hidden nothing ticks: after the setup and any
    stimuli from outside that leave the document hidden, animation frames
    change nothing at all. *)
Theorem hidden_frames_change_nothing (v : VisibilityState) (c : Z)
  (ss : list Stimulus) (ts : list Z) :
  all_outside P ss (setup P v c) = true ->
  visibilityState (run P ss (setup P v c)) = hidden ->
  frames P ts (run P ss (setup P v c)) = run P ss (setup P v c).
Proof.
  intros Hs Hh.
  pose proof (one_pending_run ss _ Hs (one_pending_setup v c)) as H.
  pose proof (one_pending_hidden _ H Hh) as Hcb.
  induction ts as [|t ts IH]; simpl; [reflexivity|].
  unfold animationFrame at 1. rewrite Hcb. simpl. exact IH.
Qed.

End Pending.

Lemma never_two_pending_witness :
  let P := countdown_props 10000 1000 in
  let ss := [Frame 1; Frame 1001; VisibilityChange hidden; CallAbort;
             CallStart; Clock 3000; VisibilityChange visible; Frame 3001] in
  all_outside P ss (setup P visible 0) = true
  /\ (length (callbacks (run P ss (setup P visible 0))) <= 1)%nat.
Proof.
  cbv zeta. split; [reflexivity|].
  apply (never_two_pending (countdown_props 10000 1000) visible 0
           [Frame 1; Frame 1001; VisibilityChange hidden; CallAbort;
            CallStart; Clock 3000; VisibilityChange visible; Frame 3001]).
  reflexivity.
Defined.

Lemma hidden_frames_change_nothing_witness :
  let P := countdown_props 10000 1000 in
  let ss := [Frame 1; Frame 1001; VisibilityChange hidden] in
  all_outside P ss (setup P visible 0) = true
  /\ visibilityState (run P ss (setup P visible 0)) = hidden
  /\ frames P [1002; 5000; 9000] (run P ss (setup P visible 0))
     = run P ss (setup P visible 0).
Proof.
  cbv zeta. split; [reflexivity|]. split; [reflexivity|].
  apply (hidden_frames_change_nothing (countdown_props 10000 1000) visible 0
           [Frame 1; Frame 1001; VisibilityChange hidden] [1002; 5000; 9000]);
    reflexivity.
Defined.

(** Two calls of the private [continuance] leave two callbacks pending,
    and the countdown then takes two steps in one frame. *)
Example two_pending_after_private_calls :
  let P := countdown_props 10000 1000 in
  let w := run P [CallContinuance] (setup P visible 0) in
  length (callbacks w) = 2%nat
  /\ emitted (frames P [1; 1001] w)
     = [EvStart; EvProgress 9000; EvProgress 8000].
Proof. split; reflexivity. Qed.


(** * The order of the events *)

Section Order.

Variable P : Props.

Lemma lifecycle_snoc l e :
  lifecycle (l ++ [e]) = lifecycle_step (lifecycle l) e.
Proof. unfold lifecycle. now rewrite fold_left_app. Qed.

Ltac order_tac :=
  unfold in_order in *; simpl in *;
  destruct (emitEvents P); simpl in *;
  rewrite ?lifecycle_snoc;
  repeat match goal with
    | H : lifecycle _ = _ |- _ => rewrite H
    end;
  simpl; auto.

Lemma in_order_end w : in_order P w -> in_order P (end_ P w).
Proof.
  intros H. unfold end_. break_world w. destruct cnt; simpl; [|exact H].
  order_tac.
Qed.

Lemma in_order_continuance w : in_order P w -> in_order P (continuance P w).
Proof.
  intros H. unfold continuance.
  destruct (counting (data w)) eqn:Hc; simpl; [|exact H].
  destruct (0 <? _); [|apply in_order_end, H].
  break_world w. order_tac.
Qed.

Lemma in_order_progress w : in_order P w -> in_order P (progress P w).
Proof.
  intros H. unfold progress.
  destruct (counting (data w)) eqn:Hc; simpl; [|exact H].
  apply in_order_continuance.
  break_world w. simpl in Hc. subst cnt.
  destruct (0 <? _); rewrite ?andb_true_r, ?andb_false_r; order_tac.
Qed.

Lemma in_order_step c t w : in_order P w -> in_order P (step P c t w).
Proof.
  intros H. unfold step. destruct (_ || _).
  - apply in_order_progress, H.
  - break_world w. order_tac.
Qed.

Lemma in_order_frame t w : in_order P w -> in_order P (animationFrame P t w).
Proof.
  unfold animationFrame. apply run_callbacks_preserves.
  - intros l w' H. break_world w'. order_tac.
  - apply in_order_step.
Qed.

Lemma in_order_start w : in_order P w -> in_order P (start P w).
Proof.
  intros H. unfold start.
  destruct (counting (data w)) eqn:Hc; [exact H|].
  assert (H1 : in_order P (if emitEvents P
                           then emit EvStart (set_counting true w)
                           else set_counting true w)).
  { break_world w. simpl in Hc. subst cnt. order_tac. }
  destruct (visibilityState _); [apply in_order_continuance, H1 | exact H1].
Qed.

Lemma in_order_abort w : in_order P w -> in_order P (abort P w).
Proof.
  intros H. unfold abort. break_world w. destruct cnt; simpl; [|exact H].
  order_tac.
Qed.

Lemma in_order_update w : in_order P w -> in_order P (update w).
Proof.
  intros H. unfold update. break_world w. destruct cnt; simpl; [|exact H].
  order_tac.
Qed.

Lemma in_order_handleVisibilityChange w :
  in_order P w -> in_order P (handleVisibilityChange P w).
Proof.
  intros H. unfold handleVisibilityChange. destruct (visibilityState w).
  - apply in_order_continuance, in_order_update, H.
  - break_world w. order_tac.
Qed.

Lemma in_order_watchEffect w : in_order P w -> in_order P (watchEffect P w).
Proof.
  intros H. unfold watchEffect.
  assert (H1 : in_order P
                 (set_endTime (clock (set_totalMilliseconds (time P) w) + time P)
                    (set_totalMilliseconds (time P) w))).
  { break_world w. order_tac. }
  destruct (autoStart P); [apply in_order_start, H1 | exact H1].
Qed.

Lemma in_order_react s w : in_order P w -> in_order P (react P s w).
Proof.
  intros H. destruct s; simpl.
  - apply in_order_start, H.
  - apply in_order_continuance, H.
  - break_world w. order_tac.
  - apply in_order_progress, H.
  - apply in_order_abort, H.
  - apply in_order_end, H.
  - apply in_order_update, H.
  - apply in_order_handleVisibilityChange, H.
  - apply in_order_frame, H.
  - apply in_order_handleVisibilityChange. break_world w. order_tac.
  - break_world w. order_tac.
  - apply in_order_watchEffect, H.
Qed.

Lemma in_order_run ss w : in_order P w -> in_order P (run P ss w).
Proof.
  revert w. induction ss as [|s ss IH]; intros w H; simpl.
  - exact H.
  - apply IH, in_order_react, H.
Qed.

Lemma in_order_setup v c : in_order P (setup P v c).
Proof.
  apply in_order_watchEffect. unfold in_order.
  destruct (emitEvents P); reflexivity.
Qed.

(** X13: the events come in the order of the state machine, whatever happens
    to the component, calls of its private methods included: [start] only
    from idle, [progress] only while counting, [abort] and [end] only from
    counting, and the [counting] flag is the state the trace has
    reached. *)
Theorem events_in_order (v : VisibilityState) (c : Z) (ss : list Stimulus) :
  emitEvents P = true ->
  lifecycle (emitted (run P ss (setup P v c)))
  = Some (counting (data (run P ss (setup P v c)))).
Proof.
  intros He.
  pose proof (in_order_run ss _ (in_order_setup v c)) as H.
  unfold in_order in H. now rewrite He in H.
Qed.

(** X14: with [emitEvents] off nothing is ever emitted. *)
Theorem no_events_when_off (v : VisibilityState) (c : Z) (ss : list Stimulus) :
  emitEvents P = false ->
  emitted (run P ss (setup P v c)) = [].
Proof.
  intros He.
  pose proof (in_order_run ss _ (in_order_setup v c)) as H.
  unfold in_order in H. now rewrite He in H.
Qed.

End Order.

Lemma events_in_order_witness :
  let P := countdown_props 10 3 in
  let ss := [Frame 1; Frame 4; CallProgress; CallAbort; CallEnd; CallStart;
             CallContinuance; Frame 9; Frame 20; Effect] in
  emitEvents P = true
  /\ lifecycle (emitted (run P ss (setup P visible 0)))
     = Some (counting (data (run P ss (setup P visible 0)))).
Proof.
  cbv zeta. split; [reflexivity|].
  apply (events_in_order (countdown_props 10 3)). reflexivity.
Defined.

Lemma no_events_when_off_witness :
  let P := {| autoStart := true; emitEvents := false;
              interval := 3; time := 10 |} in
  emitEvents P = false
  /\ emitted (run P [Frame 1; Frame 4; CallAbort; CallStart; CallEnd]
                (setup P visible 0)) = [].
Proof.
  cbv zeta. split; [reflexivity|].
  apply (no_events_when_off
           {| autoStart := true; emitEvents := false;
              interval := 3; time := 10 |}).
  reflexivity.
Defined.


(** * Frames and steps *)

Section Ticks.

Variable P : Props.
Hypothesis interval_pos : 0 < interval P.

(** What one frame does to a ticking engine. *)
Lemma tick_cases r c t w :
  ticking P r c w ->
  let w' := animationFrame P t w in
  let init' := or_else (init c) t in
  if (delay c <=? t - init')
     || (2 * delay c <=? 2 * (t - init') + (t - or_else (prev c) t))
  then
    if 0 <? r - interval P
    then ticking P (r - interval P)
           (fresh (Z.min (r - interval P) (interval P))) w'
    else stopped w'
  else
    ticking P r {| delay := delay c; init := Some init'; prev := Some t |} w'.
Proof.
  intros (Hc & Ht & Hpos & Hcb & Hd). cbv zeta.
  rewrite (frame_single P w _ c t Hcb). unfold step.
  destruct (_ || _).
  - unfold progress. simpl. rewrite Hc, Ht. simpl.
    destruct (0 <? r - interval P) eqn:Hleft.
    + apply Z.ltb_lt in Hleft.
      rewrite continuance_schedules;
        [| destruct (emitEvents P); simpl; auto
         | destruct (emitEvents P); simpl; lia].
      unfold ticking, fresh.
      destruct (emitEvents P); simpl; repeat split; auto.
    + apply Z.ltb_ge in Hleft. rewrite andb_false_r.
      rewrite continuance_ends by (simpl; auto; lia).
      unfold end_, stopped. simpl. rewrite Hc. simpl.
      destruct (emitEvents P); simpl; repeat split.
  - unfold ticking. simpl. repeat split; assumption.
Qed.

(** [start] in a visible document with nothing pending leaves a ticking
    engine. *)
Lemma ticking_after_start w :
  counting (data w) = false ->
  visibilityState w = visible ->
  callbacks w = [] ->
  0 < Z.min (totalMilliseconds (data w)) (interval P) ->
  ticking P (totalMilliseconds (data w))
    (fresh (Z.min (totalMilliseconds (data w)) (interval P))) (start P w).
Proof.
  intros Hc Hv Hcb Hd.
  destruct (start_visible P w Hc Hv Hd) as (H1 & H2 & H3 & H4 & _).
  unfold ticking. rewrite H1, H2, H3, H4, Hcb. simpl.
  repeat split; lia.
Qed.

(** A fresh closure lets its first frame pass. *)
Lemma fresh_waits r t w :
  ticking P r (fresh (Z.min r (interval P))) w ->
  ticking P r {| delay := Z.min r (interval P); init := Some t; prev := Some t |}
    (animationFrame P t w).
Proof.
  intros H. pose proof (tick_cases r _ t w H) as Hcase.
  cbv zeta in Hcase. unfold fresh in Hcase. simpl in Hcase.
  change (or_else None t) with t in Hcase.
  destruct H as (_ & _ & Hpos & _).
  replace ((Z.min r (interval P) <=? t - t)
           || (2 * Z.min r (interval P) <=? 2 * (t - t) + (t - t)))
    with false in Hcase.
  - exact Hcase.
  - symmetry. apply orb_false_intro; apply Z.leb_gt; lia.
Qed.

Lemma stopped_frames ts w : stopped w -> frames P ts w = w.
Proof.
  intros (_ & _ & Hcb). induction ts as [|t ts IH]; simpl; [reflexivity|].
  unfold animationFrame at 1. rewrite Hcb. simpl. exact IH.
Qed.

Lemma frames_snoc ts t w :
  frames P (ts ++ [t]) w = animationFrame P t (frames P ts w).
Proof. unfold frames. now rewrite fold_left_app. Qed.

(** How far a countdown can have come after [m] frames. *)
Lemma steps_bound r ts w :
  ticking P r (fresh (Z.min r (interval P))) w ->
  let m := Z.of_nat (length ts) in
  (exists k r' c',
      ticking P r' c' (frames P ts w)
      /\ 0 <= k /\ r' = r - k * interval P
      /\ ((c' = fresh (Z.min r' (interval P)) /\ 2 * k <= m)
          \/ 2 * k + 1 <= m))
  \/ (stopped (frames P ts w)
      /\ exists k, 0 <= k /\ r - k * interval P <= 0 /\ 2 * k <= m).
Proof.
  intros Hw. induction ts as [|t ts IH] using rev_ind; cbv zeta.
  - left. exists 0, r, (fresh (Z.min r (interval P))). simpl.
    replace (r - 0 * interval P) with r by lia.
    split; [exact Hw|]. split; [lia|]. split; [reflexivity|].
    left. split; [reflexivity | lia].
  - rewrite frames_snoc, length_app, Nat2Z.inj_add. simpl length.
    cbv zeta in IH.
    destruct IH as [(k & r' & c' & Ht & Hk & Hr & Hph) | (Hs & k & Hk & Hr & Hm)].
    + destruct Hph as [[Hfresh Hm] | Hm].
      * subst c'. left. eexists k, r', _.
        split; [apply fresh_waits; exact Ht|].
        split; [exact Hk|]. split; [exact Hr|]. right. lia.
      * pose proof (tick_cases r' c' t _ Ht) as Hcase. cbv zeta in Hcase.
        destruct (_ || _).
        -- destruct (0 <? r' - interval P) eqn:Hleft.
           ++ left. eexists (k + 1), (r' - interval P), _.
              split; [exact Hcase|].
              split; [lia|]. split; [lia|].
              left. split; [reflexivity | lia].
           ++ apply Z.ltb_ge in Hleft. right. split; [exact Hcase|].
              exists (k + 1). repeat split; lia.
        -- left. eexists k, r', _. split; [exact Hcase|].
           split; [exact Hk|]. split; [exact Hr|]. right. lia.
    + right. split.
      * change (animationFrame P t (frames P ts w))
          with (frames P [t] (frames P ts w)).
        rewrite (stopped_frames [t] _ Hs). exact Hs.
      * exists k. repeat split; lia.
Qed.

(** X15: the countdown takes at least two frames for each step, whatever the
    timestamps of the frames: after [m] frames at most [floor (m / 2)]
    steps are done. *)
Theorem two_frames_per_step (r : Z) (ts : list Z) (w : World) :
  ticking P r (fresh (Z.min r (interval P))) w ->
  Z.max 0 (r - Z.of_nat (length ts) / 2 * interval P)
  <= totalMilliseconds (data (frames P ts w)).
Proof.
  intros Hw.
  pose proof (steps_bound r ts w Hw) as H. cbv zeta in H.
  set (m := Z.of_nat (length ts)) in *.
  assert (Hm : 0 <= m) by (unfold m; lia).
  destruct H as [(k & r' & c' & Ht & Hk & Hr & Hph) | (Hs & k & Hk & Hr & Hkm)].
  - destruct Ht as (_ & Htot & Hpos & _). rewrite Htot.
    assert (Hkm : k <= m / 2).
    { apply Z.div_le_lower_bound; lia. }
    nia.
  - destruct Hs as (_ & Hz & _). rewrite Hz.
    assert (Hk2 : k <= m / 2).
    { apply Z.div_le_lower_bound; lia. }
    nia.
Qed.

Lemma even_frames_S a g m :
  even_frames a g (S m) = even_frames a g m ++ [a + Z.of_nat m * g].
Proof.
  unfold even_frames. rewrite seq_S, map_app. reflexivity.
Qed.

(** Evenly spaced frames that have not reached the threshold leave the
    closure waiting. *)
Lemma even_frames_wait r a g w :
  ticking P r (fresh (Z.min r (interval P))) w ->
  0 < a -> 0 < g ->
  forall m : nat,
    m = 0%nat \/ (2 * Z.of_nat m + 1) * g < 2 * Z.min r (interval P) ->
    ticking P r
      {| delay := Z.min r (interval P); init := Some a;
         prev := Some (a + Z.of_nat m * g) |}
      (frames P (even_frames a g (S m)) w).
Proof.
  intros Hw Ha Hg. induction m as [|m IH]; intros Hm.
  - simpl. replace (a + Z.of_nat 0 * g) with a by lia.
    apply fresh_waits, Hw.
  - assert (Hlt : (2 * Z.of_nat (S m) + 1) * g < 2 * Z.min r (interval P))
      by (destruct Hm as [Hm | Hm]; [discriminate | exact Hm]).
    assert (IH' := IH ltac:(right; nia)).
    rewrite even_frames_S, frames_snoc.
    pose proof (tick_cases r _ (a + Z.of_nat (S m) * g) _ IH') as Hcase.
    cbv zeta in Hcase. simpl in Hcase.
    unfold or_else, falsy in Hcase.
    replace (a =? 0) with false in Hcase by (symmetry; apply Z.eqb_neq; lia).
    replace (a + Z.of_nat m * g =? 0) with false in Hcase
      by (symmetry; apply Z.eqb_neq; nia).
    match type of Hcase with
    | if ?b then _ else _ => replace b with false in Hcase
    end.
    + exact Hcase.
    + symmetry. apply orb_false_intro; apply Z.leb_gt; nia.
Qed.

(** X16: the drift correction: with frames [g] apart the step is taken at the
    first frame [j >= 1] whose elapsed time [j * g] is within half a
    frame of the delay ([2 * delay <= (2 * j + 1) * g]), not at the first
    one that reaches the delay; no step is taken at the frames before
    it. *)
Theorem step_at_nearest_frame (r a g : Z) (j : nat) (w : World) :
  ticking P r (fresh (Z.min r (interval P))) w ->
  0 < a -> 0 < g ->
  (1 <= j)%nat ->
  j = 1%nat \/ (2 * Z.of_nat j - 1) * g < 2 * Z.min r (interval P) ->
  2 * Z.min r (interval P) <= (2 * Z.of_nat j + 1) * g ->
  (forall m, (m < j)%nat ->
             totalMilliseconds (data (frames P (even_frames a g (S m)) w)) = r)
  /\ totalMilliseconds (data (frames P (even_frames a g (S j)) w))
     = Z.max 0 (r - interval P).
Proof.
  intros Hw Ha Hg Hj Hbefore Hreach.
  assert (Hwait : forall m, (m < j)%nat ->
            ticking P r
              {| delay := Z.min r (interval P); init := Some a;
                 prev := Some (a + Z.of_nat m * g) |}
              (frames P (even_frames a g (S m)) w)).
  { intros m Hm. apply even_frames_wait; try assumption.
    destruct m as [|m]; [left; reflexivity | right].
    destruct Hbefore as [-> | Hb]; [lia | nia]. }
  split.
  - intros m Hm. apply (Hwait m Hm).
  - destruct j as [|j]; [lia|].
    rewrite even_frames_S, frames_snoc.
    pose proof (tick_cases r _ (a + Z.of_nat (S j) * g) _ (Hwait j ltac:(lia)))
      as Hcase.
    cbv zeta in Hcase. simpl in Hcase.
    unfold or_else, falsy in Hcase.
    replace (a =? 0) with false in Hcase by (symmetry; apply Z.eqb_neq; lia).
    replace (a + Z.of_nat j * g =? 0) with false in Hcase
      by (symmetry; apply Z.eqb_neq; nia).
    match type of Hcase with
    | if ?b then _ else _ => replace b with true in Hcase
    end.
    + destruct (0 <? r - interval P) eqn:Hleft.
      * apply Z.ltb_lt in Hleft. destruct Hcase as (_ & Ht & _).
        etransitivity; [exact Ht | lia].
      * apply Z.ltb_ge in Hleft. destruct Hcase as (_ & Ht & _).
        etransitivity; [exact Ht | lia].
    + symmetry. apply orb_true_intro. right. apply Z.leb_le. nia.
Qed.

(** X17: a frame with timestamp 0 does not count as the first frame of a
    closure: [!init] holds again at the next frame, which becomes the
    first, so that no step is taken at it however late it comes. *)
Theorem zero_timestamp_is_no_first_frame (r t : Z) (w : World) :
  ticking P r (fresh (Z.min r (interval P))) w ->
  ticking P r
    {| delay := Z.min r (interval P); init := Some t; prev := Some t |}
    (frames P [0; t] w)
  /\ totalMilliseconds (data (frames P [0; t] w)) = r
  /\ emitted (frames P [0; t] w) = emitted w.
Proof.
  intros Hw.
  pose proof (fresh_waits r 0 w Hw) as H0.
  pose proof (tick_cases r _ t _ H0) as Hcase.
  cbv zeta in Hcase. simpl in Hcase.
  change (or_else (Some 0) t) with t in Hcase.
  destruct Hw as (Hc & _ & Hpos & Hcb & _).
  replace ((Z.min r (interval P) <=? t - t)
           || (2 * Z.min r (interval P) <=? 2 * (t - t) + (t - t)))
    with false in Hcase
    by (symmetry; apply orb_false_intro; apply Z.leb_gt; lia).
  split; [exact Hcase|]. split; [apply Hcase|].
  simpl. rewrite (frame_single P w _ _ 0 Hcb).
  unfold step, fresh. simpl. change (or_else None 0) with 0.
  replace ((Z.min r (interval P) <=? 0 - 0)
           || (2 * Z.min r (interval P) <=? 2 * (0 - 0) + (0 - 0)))
    with false
    by (symmetry; apply orb_false_intro; apply Z.leb_gt; lia).
  match goal with
  | |- emitted (animationFrame P t ?w1) = _ =>
      rewrite (frame_single P w1 _ _ t eq_refl)
  end.
  unfold step. simpl. change (or_else (Some 0) t) with t.
  replace ((Z.min r (interval P) <=? t - t)
           || (2 * Z.min r (interval P) <=? 2 * (t - t) + (t - t)))
    with false
    by (symmetry; apply orb_false_intro; apply Z.leb_gt; lia).
  reflexivity.
Qed.

End Ticks.

Lemma two_frames_per_step_witness :
  let P := countdown_props 10000 1000 in
  let w := setup P visible 0 in
  0 < interval P
  /\ ticking P 10000 (fresh (Z.min 10000 (interval P))) w
  /\ Z.max 0 (10000 - Z.of_nat (length [1; 5000; 9000]) / 2 * interval P)
     <= totalMilliseconds (data (frames P [1; 5000; 9000] w)).
Proof.
  cbv zeta.
  assert (Hi : 0 < interval (countdown_props 10000 1000)) by (simpl; lia).
  assert (Hw : ticking (countdown_props 10000 1000) 10000
                 (fresh (Z.min 10000 (interval (countdown_props 10000 1000))))
                 (setup (countdown_props 10000 1000) visible 0)).
  { unfold ticking. repeat split; try reflexivity; simpl; lia. }
  split; [exact Hi|]. split; [exact Hw|].
  exact (two_frames_per_step (countdown_props 10000 1000) Hi 10000
           [1; 5000; 9000] _ Hw).
Defined.

Lemma step_at_nearest_frame_witness :
  let P := countdown_props 10000 1000 in
  let w := setup P visible 0 in
  0 < interval P
  /\ ticking P 10000 (fresh (Z.min 10000 (interval P))) w
  /\ (2 * Z.of_nat 62 - 1) * 16 < 2 * Z.min 10000 (interval P)
  /\ 2 * Z.min 10000 (interval P) <= (2 * Z.of_nat 62 + 1) * 16
  /\ totalMilliseconds (data (frames P (even_frames 5 16 63) w)) = 9000.
Proof.
  cbv zeta.
  assert (Hi : 0 < interval (countdown_props 10000 1000)) by (simpl; lia).
  assert (Hw : ticking (countdown_props 10000 1000) 10000
                 (fresh (Z.min 10000 (interval (countdown_props 10000 1000))))
                 (setup (countdown_props 10000 1000) visible 0)).
  { unfold ticking. repeat split; try reflexivity; simpl; lia. }
  assert (H1 : (2 * Z.of_nat 62 - 1) * 16
               < 2 * Z.min 10000 (interval (countdown_props 10000 1000)))
    by (simpl; lia).
  assert (H2 : 2 * Z.min 10000 (interval (countdown_props 10000 1000))
               <= (2 * Z.of_nat 62 + 1) * 16)
    by (simpl; lia).
  split; [exact Hi|]. split; [exact Hw|]. split; [exact H1|].
  split; [exact H2|].
  exact (proj2 (step_at_nearest_frame (countdown_props 10000 1000) Hi
                  10000 5 16 62 _ Hw ltac:(lia) ltac:(lia) ltac:(lia)
                  (or_intror H1) H2)).
Defined.

Lemma zero_timestamp_is_no_first_frame_witness :
  let P := countdown_props 10000 1000 in
  let w := setup P visible 0 in
  0 < interval P
  /\ ticking P 10000 (fresh (Z.min 10000 (interval P))) w
  /\ totalMilliseconds (data (frames P [0; 5000] w)) = 10000
  /\ totalMilliseconds (data (frames P [1; 5000] w)) = 9000.
Proof.
  cbv zeta.
  assert (Hi : 0 < interval (countdown_props 10000 1000)) by (simpl; lia).
  assert (Hw : ticking (countdown_props 10000 1000) 10000
                 (fresh (Z.min 10000 (interval (countdown_props 10000 1000))))
                 (setup (countdown_props 10000 1000) visible 0)).
  { unfold ticking. repeat split; try reflexivity; simpl; lia. }
  split; [exact Hi|]. split; [exact Hw|].
  split; [|reflexivity].
  exact (proj1 (proj2 (zero_timestamp_is_no_first_frame
                         (countdown_props 10000 1000) Hi 10000 5000 _ Hw))).
Defined.


(** * The last partial step and the effect run again *)



(** X19: the effect run again on a counting engine rewinds it in place: the
    remaining time becomes the [time] prop again and the end time the
    clock plus it, while the engine goes on counting, the pending
    callbacks stay as they are, old delay included, and nothing is
    emitted. *)
Theorem effect_rewinds_in_place (P : Props) (w : World) :
  counting (data w) = true ->
  let w' := watchEffect P w in
  totalMilliseconds (data w') = time P
  /\ endTime (data w') = clock w + time P
  /\ counting (data w') = true
  /\ callbacks w' = callbacks w
  /\ requestId (data w') = requestId (data w)
  /\ emitted w' = emitted w.
Proof.
  intros Hc. cbv zeta. unfold watchEffect.
  destruct (autoStart P).
  - rewrite start_counting by (simpl; exact Hc).
    simpl. repeat split. exact Hc.
  - simpl. repeat split. exact Hc.
Qed.

Lemma effect_rewinds_in_place_witness :
  let P := countdown_props 10000 1000 in
  let w := run P [Frame 1; Frame 1001; Clock 1500] (setup P visible 0) in
  counting (data w) = true
  /\ totalMilliseconds (data w) = 9000
  /\ totalMilliseconds (data (watchEffect P w)) = time P
  /\ endTime (data (watchEffect P w)) = 1500 + time P.
Proof.
  cbv zeta.
  pose proof (effect_rewinds_in_place (countdown_props 10000 1000)
                (run (countdown_props 10000 1000)
                   [Frame 1; Frame 1001; Clock 1500]
                   (setup (countdown_props 10000 1000) visible 0))
                eq_refl) as H.
  cbv zeta in H. destruct H as (H1 & H2 & _).
  split; [reflexivity|]. split; [reflexivity|].
  split; [exact H1 | exact H2].
Defined.
